(** * dojima: the LedgerX REST client ([dojima/brokers/ledgerx.py])

    A shallow embedding of the [LedgerX] class: Python values, the heap
    that holds the client object and its [requests.Session], the request
    dispatcher [_request] and the endpoint methods built on it. *)

From Stdlib Require Import ZArith String Ascii List.
From Stdlib Require Import DecimalString DecimalPos DecimalZ.
From stdpp Require Import gmap strings list fin_maps.

Local Open Scope string_scope.
Local Open Scope Z_scope.

(** ** Python values *)

(** The values that travel through the client: arguments, parameter
    mappings and decoded JSON.  Floats and datetimes are only passed
    along, never inspected, so they are kept by their IEEE-754 bit pattern
    and their POSIX timestamp in microseconds. *)
#[warnings="-register-all"]
Inductive PyVal : Type :=
  | PyNone
  | PyBool (b : bool)
  | PyInt (z : Z)
  | PyFloat (bits : Z)
  | PyStr (s : string)
  | PyDatetime (us : Z)
  | PyList (l : list PyVal)
  | PyDict (d : gmap string PyVal).

Module Str.

(** [str.upper] on one character of the ASCII range. *)
Definition upper_ascii (c : ascii) : ascii :=
  let n := nat_of_ascii c in
  if (andb (Nat.leb 97 n) (Nat.leb n 122)) then ascii_of_nat (n - 32) else c.

(** [str.upper].  Strings are byte strings here (UTF-8); bytes outside
    the ASCII letters are left alone.  Python also maps non-ASCII letters,
    some to several characters, but no string that has one uppercases to
    ["GET"] or ["DELETE"], so the membership test of [_request] sees the
    same answer. *)
Fixpoint upper (s : string) : string :=
  match s with
  | EmptyString => EmptyString
  | String c s' => String (upper_ascii c) (upper s')
  end.

(** [x in l] for a list of strings. *)
Definition in_list (x : string) (l : list string) : bool :=
  existsb (String.eqb x) l.

(** [str(n)] for an [int]. *)
Definition of_int (z : Z) : string :=
  NilZero.string_of_int (Z.to_int z).

End Str.

(** ** Exceptions and outcomes *)

(** The exceptions that can cross the client.  [RequestException] stands
    for whatever the transport raises while sending (connection errors,
    timeouts); [HTTPError] is raised by [Response.raise_for_status] only. *)
Inductive Exn : Type :=
  | HTTPError (msg : string)
  | JSONDecodeError (msg : string)
  | AttributeError (msg : string)
  | RequestException (msg : string).

(** A Python call either returns a value or raises. *)
Inductive outcome (A : Type) : Type :=
  | Returned (a : A)
  | Raised (e : Exn).

Arguments Returned {A} a.
Arguments Raised {A} e.

(** ** The [requests] library, as far as the client uses it *)

Module Response.

(** A [requests.Response]: the attributes the client reads
    ([status_code], [text]), the ones [raise_for_status] formats into its
    message ([reason], [url]), and what [json()] gives on this response
    (the decoded value, or the decoder's exception). *)
Record t : Type := mk {
  status_code : Z;
  reason : string;
  url : string;
  text : string;
  json : outcome PyVal
}.

(** [Response.raise_for_status] of [requests/models.py]: a message is
    built for 400 <= status_code < 500 and for 500 <= status_code < 600,
    and [HTTPError] is raised exactly when a message was built. *)
Definition raise_for_status (r : t) : outcome unit :=
  if (400 <=? status_code r) && (status_code r <? 500) then
    Raised (HTTPError (Str.of_int (status_code r) ++ " Client Error: "
                         ++ reason r ++ " for url: " ++ url r))
  else if (500 <=? status_code r) && (status_code r <? 600) then
    Raised (HTTPError (Str.of_int (status_code r) ++ " Server Error: "
                         ++ reason r ++ " for url: " ++ url r))
  else Returned tt.

(** A successful status, 2xx. *)
Definition is_2xx (r : t) : bool :=
  (200 <=? status_code r) && (status_code r <? 300).

End Response.

(** Object references. *)
Definition loc : Type := positive.

(** The keyword arguments of one [Session.request] call. *)
Abbreviation kwargs := (gmap string PyVal).

(** [requests.Session] is outside the repository: its state and what it
    answers are an interface.  [Session_request s method url opts] is
    [s.request(method, url, opts...)]: it may change the session (cookies,
    pooled connections) and returns a response or raises. *)
Class Transport (Sess : Type) : Type := {
  Session_new : Sess;
  Session_request : Sess -> string -> string -> kwargs -> Sess * outcome Response.t
}.

(** One exchange with the exchange's servers: the request as handed to
    the session, and what the session gave back. *)
Record Exchange : Type := mkExchange {
  sent_session : loc;
  sent_method : string;
  sent_url : string;
  sent_opts : kwargs;
  answer : outcome Response.t
}.

(** A [LedgerX] instance: its two attributes. *)
Record LedgerXObj : Type := mkLedgerX {
  _jwt_token : string;
  _session : loc
}.

(** ** The interpreter state and the monad of method bodies *)

Section Runtime.
Context {Sess : Type}.

(** What a method can touch: the client objects, the session objects
    they point to, and standard output.  [wire] logs, in order, every
    exchange made through a session. *)
Record World : Type := mkWorld {
  objects : gmap loc LedgerXObj;
  sessions : gmap loc Sess;
  wire : list Exchange;
  stdout : list string
}.

(** A computation runs in a world and returns or raises; what it did to
    the world before raising stays done. *)
Definition M (A : Type) : Type := World -> outcome A * World.

Definition ret {A} (a : A) : M A := fun w => (Returned a, w).

Definition raise {A} (e : Exn) : M A := fun w => (Raised e, w).

Definition bind {A B} (m : M A) (k : A -> M B) : M B :=
  fun w =>
    match m w with
    | (Returned a, w') => k a w'
    | (Raised e, w') => (Raised e, w')
    end.

(** A library call whose outcome does not depend on the world. *)
Definition lift {A} (o : outcome A) : M A := fun w => (o, w).

(** [try: m  except <the exceptions h accepts> as e: h e]. *)
Definition try_except {A} (m : M A) (h : Exn -> option (M A)) : M A :=
  fun w =>
    match m w with
    | (Returned a, w') => (Returned a, w')
    | (Raised e, w') =>
        match h e with
        | Some handler => handler w'
        | None => (Raised e, w')
        end
    end.

(** [print(a, b, ...)]: the arguments separated by one space, one line. *)
Definition print (args : list string) : M unit :=
  fun w =>
    (Returned tt,
     {| objects := objects w; sessions := sessions w; wire := wire w;
        stdout := (stdout w ++ [String.concat " " args])%list |}).

(** [self.<attribute>] on a [LedgerX] object. *)
Definition getattr {A} (self : loc) (name : string) (field : LedgerXObj -> A) : M A :=
  fun w =>
    match objects w !! self with
    | Some o => (Returned (field o), w)
    | None => (Raised (AttributeError name), w)
    end.

(** [d.get(key)] where [d] came back from [_request]: the value under
    [key], [None] when the key is absent; anything but a [dict] has no
    [get]. *)
Definition py_get (d : PyVal) (key : string) : M PyVal :=
  match d with
  | PyDict m => ret (default PyNone (m !! key))
  | _ => raise (AttributeError "get")
  end.

(** A dict display [{k1: v1, ..., kn: vn}]: entries are stored left to
    right. *)
Definition dict_display (kvs : list (string * PyVal)) : PyVal :=
  PyDict (fold_left (fun d kv => <[kv.1 := kv.2]> d) kvs ∅).

Context `{!Transport Sess}.

(** [session.request(method, url, opts...)] on the session object at
    [s]. *)
Definition Session_request_at (s : loc) (method url : string) (opts : kwargs)
  : M Response.t :=
  fun w =>
    match sessions w !! s with
    | Some st =>
        let '(st', r) := Session_request st method url opts in
        (r, {| objects := objects w;
               sessions := <[s := st']> (sessions w);
               wire := (wire w ++ [mkExchange s method url opts r])%list;
               stdout := stdout w |})
    | None => (Raised (AttributeError "request"), w)
    end.

End Runtime.

Arguments World Sess : clear implicits.
Arguments M Sess A : clear implicits.

#[global] Instance M_bind {Sess} : MBind (M Sess) := fun A B k m => bind m k.

(** A value that is a [str] or an [int] ([Union[str, int]]): the
    contract ids, which are both formatted into URLs and sent as
    parameters. *)
Inductive str_or_int : Type :=
  | IsStr (s : string)
  | IsInt (z : Z).

(** The value itself. *)
Definition to_py (x : str_or_int) : PyVal :=
  match x with
  | IsStr s => PyStr s
  | IsInt z => PyInt z
  end.

(** [f"{x}"]. *)
Definition format (x : str_or_int) : string :=
  match x with
  | IsStr s => s
  | IsInt z => Str.of_int z
  end.

(** ** The client *)

Module LedgerX.
Section Methods.
Context {Sess : Type} `{!Transport Sess}.

(** [LedgerX(jwt_token)]: a new object whose [__init__] stores the token
    and a fresh [Session()]. *)
Definition __init__ (jwt_token : string) : M Sess loc :=
  fun w =>
    let self := fresh (dom (objects w)) in
    let s := fresh (dom (sessions w)) in
    (Returned self,
     {| objects := <[self := mkLedgerX jwt_token s]> (objects w);
        sessions := <[s := Session_new]> (sessions w);
        wire := wire w;
        stdout := stdout w |}).

(** Utility method for submitting HTTP requests. *)
Definition _request (self : loc) (method url : string) (data : PyVal) : M Sess PyVal :=
  jwt_token ← getattr self "_jwt_token" _jwt_token;
  let headers : kwargs := {[ "Authorization" := PyStr ("JWT " ++ jwt_token) ]} in
  let opts : kwargs :=
    <["allow_redirects" := PyBool false]> (<["headers" := PyDict headers]> ∅) in
  let opts : kwargs :=
    if Str.in_list (Str.upper method) ["GET"; "DELETE"]
    then <["params" := data]> opts
    else <["json" := data]> opts in
  session ← getattr self "_session" _session;
  response ← Session_request_at session method url opts;
  early ← try_except
            (lift (Response.raise_for_status response) ;; ret None)
            (fun error =>
               match error with
               | HTTPError msg =>
                   Some (print ["error: "; msg] ;; ret (Some (PyDict ∅)))
               | _ => None
               end);
  match early with
  | Some result => ret result
  | None =>
      if negb (String.eqb (Response.text response) "")
      then lift (Response.json response)
      else
        (* return status code for empty response *)
        ret (dict_display
               [("data", dict_display
                           [("status", PyInt (Response.status_code response))])])
  end.

(** Returns a list of contracts. *)
Definition get_contracts (self : loc)
    (active contract_type derivative_type asset before_ts after_ts limit offset : PyVal)
  : M Sess PyVal :=
  let data := dict_display
    [("active", active);
     ("contract_type", contract_type);
     ("derivative_type", derivative_type);
     ("asset", asset);
     ("before_ts", before_ts);
     ("after_ts", after_ts);
     ("limit", limit);
     ("offset", offset)] in
  response ← _request self "GET" "https://api.ledgerx.com/trading/contracts" data;
  py_get response "data".

(** Returns a list of contracts that you have traded. *)
Definition get_traded_contracts (self : loc)
    (derivative_type asset limit offset : PyVal) : M Sess PyVal :=
  let data := dict_display
    [("derivative_type", derivative_type);
     ("asset", asset);
     ("limit", limit);
     ("offset", offset)] in
  response ← _request self "GET" "https://api.ledgerx.com/trading/contracts/traded" data;
  py_get response "data".

(** Returns contract details for a single contract ID.  ([data] is left
    to its default, [None], here and wherever no mapping is built.) *)
Definition get_contract_details (self : loc) (contract_id : str_or_int) : M Sess PyVal :=
  response ← _request self "GET"
               ("https://api.ledgerx.com/trading/contracts/" ++ format contract_id)
               PyNone;
  py_get response "data".

(** Returns your position for a given contract. *)
Definition get_contract_position (self : loc) (contract_id : str_or_int) : M Sess PyVal :=
  response ← _request self "GET"
               ("https://api.ledgerx.com/trading/contracts/" ++ format contract_id
                  ++ "/position")
               PyNone;
  py_get response "data".

(** Snapshot information about the current best bid/ask, 24h volume, and
    last trade. *)
Definition get_contract_ticker (self : loc) (contract_id : str_or_int)
    (time asset : PyVal) : M Sess PyVal :=
  let data := dict_display [("time", time); ("asset", asset)] in
  response ← _request self "GET"
               ("https://api.ledgerx.com/trading/contracts/" ++ format contract_id
                  ++ "/ticker")
               data;
  py_get response "data".

(** Returns all your positions. *)
Definition get_positions (self : loc) (limit offset : PyVal) : M Sess PyVal :=
  let data := dict_display [("limit", limit); ("offset", offset)] in
  response ← _request self "GET" "https://api.ledgerx.com/trading/positions" data;
  py_get response "data".

(** Returns a list of your trades for a given position. *)
Definition get_trades_for_position (self : loc) (contract_id : str_or_int)
  : M Sess PyVal :=
  response ← _request self "GET"
               ("https://api.ledgerx.com/trading/positions/" ++ format contract_id
                  ++ "/trades")
               PyNone;
  py_get response "data".

(** Get all resting limit orders directly from the exchange. *)
Definition get_open_orders (self : loc) : M Sess PyVal :=
  response ← _request self "GET" "https://trade.ledgerx.com/api/open-orders" PyNone;
  py_get response "data".

(** Place an order. *)
Definition create_order (self : loc) (contract_id : str_or_int)
    (order_type is_ask size price volatile swap_purpose : PyVal) : M Sess PyVal :=
  let data := dict_display
    [("contract_id", to_py contract_id);
     ("order_type", order_type);
     ("is_ask", is_ask);
     ("size", size);
     ("price", price);
     ("volatile", volatile);
     ("swap_purpose", swap_purpose)] in
  response ← _request self "POST" "https://trade.ledgerx.com/api/orders" data;
  py_get response "data".

(** Delete all outstanding orders associated with your MPID. *)
Definition delete_all_orders (self : loc) : M Sess PyVal :=
  response ← _request self "DELETE" "https://trade.ledgerx.com/api/orders" PyNone;
  py_get response "data".

(** Cancel a single resting limit order. *)
Definition delete_single_order (self : loc) (mid : string) (contract_id : str_or_int)
  : M Sess PyVal :=
  let data := dict_display [("contract_id", to_py contract_id)] in
  response ← _request self "DELETE"
               ("https://trade.ledgerx.com/api/orders/" ++ mid)
               data;
  py_get response "data".

(** Cancel and replace order. *)
Definition patch_order (self : loc) (mid : string) (contract_id : str_or_int)
    (price size : PyVal) : M Sess PyVal :=
  let data := dict_display
    [("contract_id", to_py contract_id); ("price", price); ("size", size)] in
  response ← _request self "DELETE"
               ("https://trade.ledgerx.com/api/orders/" ++ mid ++ "/edit")
               data;
  py_get response "data".

(** Request the current book state for a contract. *)
Definition get_current_book_state (self : loc) (contract_id : str_or_int)
  : M Sess PyVal :=
  response ← _request self "GET"
               ("https://trade.ledgerx.com/api/book-states/" ++ format contract_id)
               PyNone;
  py_get response "data".

(** *** Calls from outside *)

(** One call of a public method as a caller writes it: an optional
    argument may be left out. *)
Inductive Call : Type :=
  | GetContracts
      (active contract_type derivative_type asset before_ts after_ts limit offset
         : option PyVal)
  | GetTradedContracts (derivative_type asset limit offset : option PyVal)
  | GetContractDetails (contract_id : str_or_int)
  | GetContractPosition (contract_id : str_or_int)
  | GetContractTicker (contract_id : str_or_int) (time asset : option PyVal)
  | GetPositions (limit offset : option PyVal)
  | GetTradesForPosition (contract_id : str_or_int)
  | GetOpenOrders
  | CreateOrder (contract_id : str_or_int) (order_type is_ask size price : PyVal)
      (volatile swap_purpose : option PyVal)
  | DeleteAllOrders
  | DeleteSingleOrder (mid : string) (contract_id : str_or_int)
  | PatchOrder (mid : string) (contract_id : str_or_int) (price size : PyVal)
  | GetCurrentBookState (contract_id : str_or_int).

(** The call itself: an omitted argument takes the default of the
    method's signature. *)
Definition invoke (self : loc) (c : Call) : M Sess PyVal :=
  let opt := default PyNone in
  match c with
  | GetContracts active contract_type derivative_type asset before_ts after_ts
      limit offset =>
      get_contracts self (opt active) (opt contract_type) (opt derivative_type)
        (opt asset) (opt before_ts) (opt after_ts) (opt limit) (opt offset)
  | GetTradedContracts derivative_type asset limit offset =>
      get_traded_contracts self (opt derivative_type) (opt asset) (opt limit)
        (opt offset)
  | GetContractDetails contract_id => get_contract_details self contract_id
  | GetContractPosition contract_id => get_contract_position self contract_id
  | GetContractTicker contract_id time asset =>
      get_contract_ticker self contract_id (opt time) (opt asset)
  | GetPositions limit offset => get_positions self (opt limit) (opt offset)
  | GetTradesForPosition contract_id => get_trades_for_position self contract_id
  | GetOpenOrders => get_open_orders self
  | CreateOrder contract_id order_type is_ask size price volatile swap_purpose =>
      create_order self contract_id order_type is_ask size price
        (default (PyBool false) volatile)
        (default (PyStr "undisclosed") swap_purpose)
  | DeleteAllOrders => delete_all_orders self
  | DeleteSingleOrder mid contract_id => delete_single_order self mid contract_id
  | PatchOrder mid contract_id price size => patch_order self mid contract_id price size
  | GetCurrentBookState contract_id => get_current_book_state self contract_id
  end.

(** A caller making the calls [cs] one after the other on the same
    client, keeping each outcome (a raised exception is caught by the
    caller and the next call is made). *)
Fixpoint run_calls (self : loc) (cs : list Call) (w : World Sess)
  : list (outcome PyVal) * World Sess :=
  match cs with
  | [] => ([], w)
  | c :: cs' =>
      let '(o, w1) := invoke self c w in
      let '(os, w2) := run_calls self cs' w1 in
      (o :: os, w2)
  end.

End Methods.
End LedgerX.

(** ** A scripted transport, to run the client on concrete exchanges *)

(** A session that answers from a script: each request consumes the next
    scripted outcome; with the script used up the connection fails. *)
#[global] Instance scripted : Transport (list (outcome Response.t)) := {
  Session_new := [];
  Session_request st method url opts :=
    match st with
    | [] => ([], Raised (RequestException "connection refused"))
    | r :: st' => (st', r)
    end
}.

(** A world with one client (token ["tok"]) at reference 1 whose session,
    at reference 1, will answer with [script]. *)
Definition scripted_world (script : list (outcome Response.t))
  : World (list (outcome Response.t)) :=
  {| objects := {[ 1%positive := mkLedgerX "tok" 1%positive ]};
     sessions := {[ 1%positive := script ]};
     wire := [];
     stdout := [] |}.

(** A response with the given status, body and decoding. *)
Definition response_of (status : Z) (body : string) (decoded : outcome PyVal)
  : Response.t :=
  {| Response.status_code := status;
     Response.reason := "";
     Response.url := "";
     Response.text := body;
     Response.json := decoded |}.

(** The client of [scripted_world], and the decoding failure of a body
    that is not JSON. *)
Definition tok_client : LedgerXObj := mkLedgerX "tok" 1%positive.

Definition not_json : outcome PyVal := Raised (JSONDecodeError "Expecting value").

(** A world with nothing in it. *)
Definition empty_world : World (list (outcome Response.t)) :=
  {| objects := ∅; sessions := ∅; wire := []; stdout := [] |}.

(** The options of a request made with token ["tok"] and no data, for a
    verb of the query-string kind. *)
Definition tok_query_opts : kwargs :=
  <["params" := PyNone]>
    (<["allow_redirects" := PyBool false]>
       (<["headers" := PyDict {[ "Authorization" := PyStr "JWT tok" ]}]> ∅)).

(** A transport whose sessions keep no state and give every request the
    same answer. *)
Definition fixed_answer (r : outcome Response.t) : Transport unit :=
  {| Session_new := tt;
     Session_request _ _ _ _ := (tt, r) |}.

(** A world with nothing in it, for that transport. *)
Definition blank : World unit :=
  {| objects := ∅; sessions := ∅; wire := []; stdout := [] |}.

(** ** The example program ([dojima/main.py]) *)

Module Main.
Section Program.
Context {Sess : Type} `{!Transport Sess}.

(** [str(v)] as [print] applies it to its argument: a builtin, taken as
    it is. *)
Variable py_str : PyVal -> string.

(** [main()]: a client for the token [LEDGERX_JWT] (a constant of the
    module [constants], which is not in the repository), one listing of
    contracts, and the result printed.  The arguments of [get_contracts]
    that the call leaves out are at their default, [None]. *)
Definition main (LEDGERX_JWT : string) : M Sess unit :=
  client ← LedgerX.__init__ LEDGERX_JWT;
  contracts ← LedgerX.get_contracts client
                (PyStr "true") PyNone (PyStr "future_contract") PyNone
                PyNone PyNone (PyInt 5) PyNone;
  print [py_str contracts].

End Program.
End Main.

(** The listing that [main] asks for, as a call from outside. *)
Definition main_call : LedgerX.Call :=
  LedgerX.GetContracts (Some (PyStr "true")) None (Some (PyStr "future_contract")) None
    None None (Some (PyInt 5)) None.

(** A stand-in for [str] in concrete runs, right on [None], the booleans
    and the integers. *)
Definition show (v : PyVal) : string :=
  match v with
  | PyNone => "None"
  | PyBool true => "True"
  | PyBool false => "False"
  | PyInt z => Str.of_int z
  | _ => "<object>"
  end.

(** ** Reading the log *)

(** A header of a request that was sent. *)
Definition sent_header (x : Exchange) (name : string) : option PyVal :=
  match sent_opts x !! "headers" with
  | Some (PyDict h) => h !! name
  | _ => None
  end.

(** The status classes of a response. *)
Definition is_4xx_5xx (r : Response.t) : bool :=
  (400 <=? Response.status_code r) && (Response.status_code r <? 600).

(** ** Properties *)

Import LedgerX.

Section Properties.
Context {Sess : Type} `{!Transport Sess}.

Implicit Types (w : World Sess) (self : loc) (o : LedgerXObj) (st : Sess).
Implicit Types (method url : string) (data : PyVal) (c : Call).

(** The options [_request] builds before it places [data]. *)
Local Abbreviation base_opts o :=
  (<["allow_redirects" := PyBool false]>
     (<["headers" :=
          PyDict {[ "Authorization" := PyStr ("JWT " ++ _jwt_token o) ]}]> ∅) : kwargs).

(** One run of [_request] on a live client, step by step. *)
Lemma _request_run self method url data w o st :
  objects w !! self = Some o ->
  sessions w !! _session o = Some st ->
  _request self method url data w =
    let opts : kwargs :=
      if Str.in_list (Str.upper method) ["GET"; "DELETE"]
      then <["params" := data]> (base_opts o)
      else <["json" := data]> (base_opts o) in
    let '(st', r) := Session_request st method url opts in
    let sent := (wire w ++ [mkExchange (_session o) method url opts r])%list in
    let ss := <[_session o := st']> (sessions w) in
    match r with
    | Raised e => (Raised e, mkWorld (objects w) ss sent (stdout w))
    | Returned response =>
        match Response.raise_for_status response with
        | Raised (HTTPError msg) =>
            (Returned (PyDict ∅),
             mkWorld (objects w) ss sent
               (stdout w ++ [String.concat " " ["error: "; msg]])%list)
        | Raised e => (Raised e, mkWorld (objects w) ss sent (stdout w))
        | Returned _ =>
            if negb (String.eqb (Response.text response) "")
            then (Response.json response, mkWorld (objects w) ss sent (stdout w))
            else (Returned
                    (dict_display
                       [("data",
                         dict_display
                           [("status", PyInt (Response.status_code response))])]),
                  mkWorld (objects w) ss sent (stdout w))
        end
    end.
Proof.
  intros Ho Hs.
  unfold _request, mbind, M_bind, bind, getattr, Session_request_at.
  rewrite Ho. cbn beta iota. rewrite Ho. cbn beta iota zeta. rewrite Hs.
  destruct (Session_request st method url _) as [st' [response|e]]; [|reflexivity].
  unfold try_except, lift, ret, print, mbind, M_bind, bind. cbn beta iota zeta.
  destruct (Response.raise_for_status response) as [[]|[]]; cbn; try reflexivity.
  destruct (Response.text response =? "")%string; reflexivity.
Qed.

(** What one run of [_request] on a live client leaves behind: exactly
    one more exchange on the wire, made of the arguments and the options
    built; an outcome and an output that only depend on the answer; the
    objects as they were; no session touched but the client's own. *)
Lemma _request_exchange self method url data w o st :
  objects w !! self = Some o ->
  sessions w !! _session o = Some st ->
  let w' := (_request self method url data w).2 in
  ∃ x st',
    wire w' = (wire w ++ [x])%list
    ∧ sent_session x = _session o ∧ sent_method x = method ∧ sent_url x = url
    ∧ sent_opts x =
        (if Str.in_list (Str.upper method) ["GET"; "DELETE"]
         then <["params" := data]> (base_opts o)
         else <["json" := data]> (base_opts o))
    ∧ Session_request st method url (sent_opts x) = (st', answer x)
    ∧ objects w' = objects w
    ∧ sessions w' = <[_session o := st']> (sessions w)
    ∧ (_request self method url data w).1 =
        match answer x with
        | Raised e => Raised e
        | Returned response =>
            match Response.raise_for_status response with
            | Raised (HTTPError _) => Returned (PyDict ∅)
            | Raised e => Raised e
            | Returned _ =>
                if negb (String.eqb (Response.text response) "")
                then Response.json response
                else Returned
                       (dict_display
                          [("data",
                            dict_display
                              [("status", PyInt (Response.status_code response))])])
            end
        end
    ∧ stdout w' =
        match answer x with
        | Returned response =>
            match Response.raise_for_status response with
            | Raised (HTTPError msg) => (stdout w ++ [("error:  " ++ msg)%string])%list
            | _ => stdout w
            end
        | Raised _ => stdout w
        end.
Proof.
  intros Ho Hs. rewrite (_request_run _ _ _ _ _ _ _ Ho Hs). cbv zeta.
  destruct (Session_request st method url _) as [st' r] eqn:Hreq.
  eexists (mkExchange _ _ _ _ r), st'.
  destruct r as [response|e]; cbn [answer sent_opts sent_session sent_method sent_url].
  - destruct (Response.raise_for_status response) as [[]|[]]; cbn;
      try destruct (Response.text response =? "")%string; cbn;
      repeat split; try reflexivity; exact Hreq.
  - cbn. repeat split; try reflexivity; exact Hreq.
Qed.

(** [_request] never touches the client objects, whatever the world. *)
Lemma _request_objects self method url data w :
  objects (_request self method url data w).2 = objects w.
Proof.
  destruct (objects w !! self) as [o|] eqn:Ho.
  - destruct (sessions w !! _session o) as [st|] eqn:Hs.
    + destruct (_request_exchange self method url data w o st Ho Hs)
        as (x & st' & _ & _ & _ & _ & _ & _ & H & _).
      exact H.
    + unfold _request, mbind, M_bind, bind, getattr, Session_request_at.
      rewrite Ho. cbn beta iota. rewrite Ho. cbn beta iota zeta. rewrite Hs.
      reflexivity.
  - unfold _request, mbind, M_bind, bind, getattr. rewrite Ho. reflexivity.
Qed.

(** [_request] leaves alone every session that is not the client's. *)
Lemma _request_sessions self method url data w l :
  (∀ o, objects w !! self = Some o -> l ≠ _session o) ->
  sessions (_request self method url data w).2 !! l = sessions w !! l.
Proof.
  intros Hl.
  destruct (objects w !! self) as [o|] eqn:Ho.
  - destruct (sessions w !! _session o) as [st|] eqn:Hs.
    + destruct (_request_exchange self method url data w o st Ho Hs)
        as (x & st' & _ & _ & _ & _ & _ & _ & _ & H & _).
      rewrite H. apply lookup_insert_ne. intros E. exact (Hl o eq_refl (eq_sym E)).
    + unfold _request, mbind, M_bind, bind, getattr, Session_request_at.
      rewrite Ho. cbn beta iota. rewrite Ho. cbn beta iota zeta. rewrite Hs.
      reflexivity.
  - unfold _request, mbind, M_bind, bind, getattr. rewrite Ho. reflexivity.
Qed.

(** A live session stays live across [_request]. *)
Lemma _request_session_live self method url data w l :
  is_Some (sessions w !! l) ->
  is_Some (sessions (_request self method url data w).2 !! l).
Proof.
  intros Hl.
  destruct (objects w !! self) as [o|] eqn:Ho.
  - destruct (sessions w !! _session o) as [st|] eqn:Hs.
    + destruct (_request_exchange self method url data w o st Ho Hs)
        as (x & st' & _ & _ & _ & _ & _ & _ & _ & H & _).
      rewrite H. destruct (decide (_session o = l)) as [->|Hne].
      * rewrite lookup_insert_eq. eauto.
      * rewrite lookup_insert_ne by exact Hne. exact Hl.
    + unfold _request, mbind, M_bind, bind, getattr, Session_request_at.
      rewrite Ho. cbn beta iota. rewrite Ho. cbn beta iota zeta. rewrite Hs.
      exact Hl.
  - unfold _request, mbind, M_bind, bind, getattr. rewrite Ho. exact Hl.
Qed.

(** Unwrapping [response.get("data")] after the dispatcher: the world is
    the dispatcher's, the value is read off its result. *)
Lemma unwrap_data (m : M Sess PyVal) w :
  (m ≫= (λ response, py_get response "data")) w =
    match m w with
    | (Returned (PyDict d), w') => (Returned (default PyNone (d !! "data")), w')
    | (Returned _, w') => (Raised (AttributeError "get"), w')
    | (Raised e, w') => (Raised e, w')
    end.
Proof.
  unfold mbind, M_bind, bind.
  destruct (m w) as [[v|e] w']; [|reflexivity].
  destruct v; reflexivity.
Qed.

(** Every public method is one call of [_request] followed by the
    unwrapping. *)
Lemma invoke_via_request self c :
  ∃ method url data,
    invoke self c = (_request self method url data ≫= (λ response, py_get response "data")).
Proof. destruct c; do 3 eexists; reflexivity. Qed.

(** The unwrapping has no effect of its own. *)
Lemma unwrap_world (m : M Sess PyVal) w :
  ((m ≫= (λ response, py_get response "data")) w).2 = (m w).2.
Proof.
  rewrite unwrap_data. destruct (m w) as [[v|e] w']; [|reflexivity].
  destruct v; reflexivity.
Qed.

(** The value a public method gives, from the dispatcher's outcome. *)
Lemma unwrap_outcome (m : M Sess PyVal) w :
  ((m ≫= (λ response, py_get response "data")) w).1 =
    match (m w).1 with
    | Returned (PyDict d) => Returned (default PyNone (d !! "data"))
    | Returned _ => Raised (AttributeError "get")
    | Raised e => Raised e
    end.
Proof.
  rewrite unwrap_data. destruct (m w) as [[v|e] w']; [|reflexivity].
  destruct v; reflexivity.
Qed.

Lemma invoke_objects self c w : objects (invoke self c w).2 = objects w.
Proof.
  destruct (invoke_via_request self c) as (method & url & data & ->).
  rewrite unwrap_world. apply _request_objects.
Qed.

Lemma invoke_sessions self c w l :
  (∀ o, objects w !! self = Some o -> l ≠ _session o) ->
  sessions (invoke self c w).2 !! l = sessions w !! l.
Proof.
  destruct (invoke_via_request self c) as (method & url & data & ->).
  rewrite unwrap_world. apply _request_sessions.
Qed.

Lemma invoke_session_live self c w l :
  is_Some (sessions w !! l) -> is_Some (sessions (invoke self c w).2 !! l).
Proof.
  destruct (invoke_via_request self c) as (method & url & data & ->).
  rewrite unwrap_world. apply _request_session_live.
Qed.

(** The world after the first of several calls. *)
Lemma run_calls_cons self c cs w :
  (run_calls self (c :: cs) w).2 = (run_calls self cs (invoke self c w).2).2.
Proof.
  cbn [run_calls]. destruct (invoke self c w) as [r w1]. cbn [snd].
  destruct (run_calls self cs w1) as [os w2]. reflexivity.
Qed.

Lemma run_calls_objects self cs w : objects (run_calls self cs w).2 = objects w.
Proof.
  revert w. induction cs as [|c cs IH]; intros w; [reflexivity|].
  rewrite run_calls_cons, IH. apply invoke_objects.
Qed.

Lemma run_calls_sessions self cs w l :
  (∀ o, objects w !! self = Some o -> l ≠ _session o) ->
  sessions (run_calls self cs w).2 !! l = sessions w !! l.
Proof.
  revert w. induction cs as [|c cs IH]; intros w Hl; [reflexivity|].
  rewrite run_calls_cons, IH.
  - apply invoke_sessions, Hl.
  - rewrite invoke_objects. exact Hl.
Qed.

Lemma run_calls_session_live self cs w l :
  is_Some (sessions w !! l) -> is_Some (sessions (run_calls self cs w).2 !! l).
Proof.
  revert w. induction cs as [|c cs IH]; intros w Hl; [exact Hl|].
  rewrite run_calls_cons. apply IH, invoke_session_live, Hl.
Qed.

(** Construction binds the two attributes of a new object: the token
    given and a new session. *)
Lemma init_binds jwt_token w0 self w1 :
  __init__ jwt_token w0 = (Returned self, w1) ->
  ∃ s, objects w1 !! self = Some (mkLedgerX jwt_token s)
       ∧ sessions w1 !! s = Some Session_new
       ∧ objects w0 !! self = None
       ∧ sessions w0 !! s = None.
Proof.
  unfold __init__. intros H. injection H as <- <-. cbn.
  exists (fresh (dom (sessions w0))).
  rewrite !lookup_insert_eq. repeat split.
  - apply not_elem_of_dom, is_fresh.
  - apply not_elem_of_dom, is_fresh.
Qed.

(** A client, once constructed, stays live and keeps its attributes
    through any calls. *)
Lemma constructed_stays_live jwt_token w0 self w1 cs :
  __init__ jwt_token w0 = (Returned self, w1) ->
  ∃ s st, objects (run_calls self cs w1).2 !! self = Some (mkLedgerX jwt_token s)
          ∧ sessions (run_calls self cs w1).2 !! s = Some st
          ∧ objects w1 !! self = Some (mkLedgerX jwt_token s).
Proof.
  intros H. destruct (init_binds _ _ _ _ H) as (s & Ho & Hs & _).
  destruct (run_calls_session_live self cs w1 s) as [st Hst]; [eauto|].
  exists s, st. rewrite run_calls_objects. auto.
Qed.

(** The two verbs whose parameters go to the query string. *)
Lemma in_get_delete (s : string) :
  Str.in_list s ["GET"; "DELETE"] = true ↔ s = "GET" ∨ s = "DELETE".
Proof.
  unfold Str.in_list. cbn [existsb].
  rewrite !orb_true_iff, !String.eqb_eq. intuition discriminate.
Qed.

(** The last exchange of a log that grew by one. *)
Lemma wire_last (l : list Exchange) x y : (l ++ [x])%list = (l ++ [y])%list -> x = y.
Proof. intros H. apply app_inj_tail in H. tauto. Qed.

(** *** The request that goes out *)

(** C1: on every call [_request(method, url, data)] of a live client one
    request goes out; when [method.upper()] is ["GET"] or ["DELETE"] it
    carries [data] as its query-string parameters and has no JSON body,
    and otherwise (so for ["POST"] and ["PUT"]) it carries [data] as its
    JSON body and has no query-string parameters. *)
Theorem request_places_data self method url data w o st :
  objects w !! self = Some o ->
  sessions w !! _session o = Some st ->
  ∃ x,
    wire (_request self method url data w).2 = (wire w ++ [x])%list
    ∧ sent_method x = method ∧ sent_url x = url
    ∧ (Str.upper method = "GET" ∨ Str.upper method = "DELETE" ->
       sent_opts x !! "params" = Some data ∧ sent_opts x !! "json" = None)
    ∧ (¬ (Str.upper method = "GET" ∨ Str.upper method = "DELETE") ->
       sent_opts x !! "json" = Some data ∧ sent_opts x !! "params" = None)
    ∧ (Str.upper method = "POST" ∨ Str.upper method = "PUT" ->
       sent_opts x !! "json" = Some data ∧ sent_opts x !! "params" = None).
Proof.
  intros Ho Hs.
  destruct (_request_exchange self method url data w o st Ho Hs)
    as (x & st' & Hw & _ & Hm & Hu & Hopts & _).
  exists x. split; [exact Hw|]. split; [exact Hm|]. split; [exact Hu|].
  rewrite Hopts.
  destruct (Str.in_list (Str.upper method) ["GET"; "DELETE"]) eqn:Hin.
  - apply in_get_delete in Hin. split; [|split].
    + intros _. split; reflexivity.
    + intros Hn. destruct (Hn Hin).
    + intros [E|E]; rewrite E in Hin; destruct Hin; discriminate.
  - assert (Hn : ¬ (Str.upper method = "GET" ∨ Str.upper method = "DELETE")).
    { intros H. apply in_get_delete in H. congruence. }
    split; [|split].
    + intros H. destruct (Hn H).
    + intros _. split; reflexivity.
    + intros _. split; reflexivity.
Qed.

(** C10: [patch_order(mid, contract_id, price, size)] on a live client
    sends one request, with method ["DELETE"], to
    [https://trade.ledgerx.com/api/orders/{mid}/edit]; the mapping of
    [contract_id], [price] and [size] is in its query-string parameters
    and the request has no JSON body. *)
Theorem patch_order_in_query_string self mid contract_id price size w o st :
  objects w !! self = Some o ->
  sessions w !! _session o = Some st ->
  ∃ x,
    wire (patch_order self mid contract_id price size w).2 = (wire w ++ [x])%list
    ∧ sent_method x = "DELETE"
    ∧ sent_url x = "https://trade.ledgerx.com/api/orders/" ++ mid ++ "/edit"
    ∧ sent_opts x !! "params" =
        Some (PyDict (<["size" := size]>
                        (<["price" := price]>
                           (<["contract_id" := to_py contract_id]> ∅))))
    ∧ sent_opts x !! "json" = None.
Proof.
  intros Ho Hs. unfold patch_order. rewrite unwrap_world.
  destruct (_request_exchange self "DELETE"
              ("https://trade.ledgerx.com/api/orders/" ++ mid ++ "/edit")
              (dict_display
                 [("contract_id", to_py contract_id); ("price", price); ("size", size)])
              w o st Ho Hs)
    as (x & st' & Hw & _ & Hm & Hu & Hopts & _).
  exists x. rewrite Hopts. repeat split; assumption || reflexivity.
Qed.

(** C6: [get_contracts] on a live client hands the dispatcher, and so the
    session, a parameter mapping with exactly the eight keys [active],
    [contract_type], [derivative_type], [asset], [before_ts], [after_ts],
    [limit], [offset], each bound to the argument of that name as it
    came, [None] included. *)
Theorem get_contracts_parameters self
    active contract_type derivative_type asset before_ts after_ts limit offset
    w o st :
  objects w !! self = Some o ->
  sessions w !! _session o = Some st ->
  ∃ x (params : gmap string PyVal),
    wire (get_contracts self active contract_type derivative_type asset
            before_ts after_ts limit offset w).2 = (wire w ++ [x])%list
    ∧ sent_method x = "GET"
    ∧ sent_url x = "https://api.ledgerx.com/trading/contracts"
    ∧ sent_opts x !! "params" = Some (PyDict params)
    ∧ dom params =
        ({[ "active"; "contract_type"; "derivative_type"; "asset";
            "before_ts"; "after_ts"; "limit"; "offset" ]} : gset string)
    ∧ params !! "active" = Some active
    ∧ params !! "contract_type" = Some contract_type
    ∧ params !! "derivative_type" = Some derivative_type
    ∧ params !! "asset" = Some asset
    ∧ params !! "before_ts" = Some before_ts
    ∧ params !! "after_ts" = Some after_ts
    ∧ params !! "limit" = Some limit
    ∧ params !! "offset" = Some offset.
Proof.
  intros Ho Hs. unfold get_contracts. rewrite unwrap_world.
  match goal with
  | |- context [_request self ?m ?u ?d w] =>
      destruct (_request_exchange self m u d w o st Ho Hs)
        as (x & st' & Hw & _ & Hm & Hu & Hopts & _)
  end.
  exists x. eexists. split; [exact Hw|]. split; [exact Hm|]. split; [exact Hu|].
  rewrite Hopts. split; [reflexivity|].
  split.
  - cbn [fold_left fst snd]. rewrite !dom_insert_L, dom_empty_L. set_solver.
  - repeat split; reflexivity.
Qed.

(** C8: every request that [_request] sends, whatever the method and the
    URL, has [allow_redirects] set to [False]; so has the request of
    every public method. *)
Theorem redirects_disabled self w o st :
  objects w !! self = Some o ->
  sessions w !! _session o = Some st ->
  (∀ method url data, ∃ x,
      wire (_request self method url data w).2 = (wire w ++ [x])%list
      ∧ sent_opts x !! "allow_redirects" = Some (PyBool false))
  ∧ (∀ c, ∃ x,
      wire (invoke self c w).2 = (wire w ++ [x])%list
      ∧ sent_opts x !! "allow_redirects" = Some (PyBool false)).
Proof.
  intros Ho Hs.
  assert (H : ∀ method url data, ∃ x,
             wire (_request self method url data w).2 = (wire w ++ [x])%list
             ∧ sent_opts x !! "allow_redirects" = Some (PyBool false)).
  { intros method url data.
    destruct (_request_exchange self method url data w o st Ho Hs)
      as (x & st' & Hw & _ & _ & _ & Hopts & _).
    exists x. split; [exact Hw|]. rewrite Hopts.
    destruct (Str.in_list _ _); reflexivity. }
  split; [exact H|].
  intros c. destruct (invoke_via_request self c) as (method & url & data & ->).
  rewrite unwrap_world. apply H.
Qed.

(** C7: on a client constructed with [jwt_token] [t], after any calls
    made on it, every request that [_request] sends has as its headers
    the one header [Authorization] with value ["JWT " + t]; so has the
    request of every public method. *)
Theorem authorization_header t w0 self w1 cs :
  __init__ t w0 = (Returned self, w1) ->
  let w := (run_calls self cs w1).2 in
  (∀ method url data, ∃ x,
      wire (_request self method url data w).2 = (wire w ++ [x])%list
      ∧ sent_opts x !! "headers"
        = Some (PyDict {[ "Authorization" := PyStr ("JWT " ++ t) ]})
      ∧ sent_header x "Authorization" = Some (PyStr ("JWT " ++ t)))
  ∧ (∀ c, ∃ x,
      wire (invoke self c w).2 = (wire w ++ [x])%list
      ∧ sent_opts x !! "headers"
        = Some (PyDict {[ "Authorization" := PyStr ("JWT " ++ t) ]})
      ∧ sent_header x "Authorization" = Some (PyStr ("JWT " ++ t))).
Proof.
  intros Hinit w.
  destruct (constructed_stays_live t w0 self w1 cs Hinit) as (s & st & Ho & Hs & _).
  fold w in Ho, Hs.
  assert (H : ∀ method url data, ∃ x,
             wire (_request self method url data w).2 = (wire w ++ [x])%list
             ∧ sent_opts x !! "headers"
               = Some (PyDict {[ "Authorization" := PyStr ("JWT " ++ t) ]})
             ∧ sent_header x "Authorization" = Some (PyStr ("JWT " ++ t))).
  { intros method url data.
    destruct (_request_exchange self method url data w _ st Ho Hs)
      as (x & st' & Hw & _ & _ & _ & Hopts & _).
    exists x. split; [exact Hw|]. unfold sent_header. rewrite Hopts.
    destruct (Str.in_list _ _); split; reflexivity. }
  split; [exact H|].
  intros c. destruct (invoke_via_request self c) as (method & url & data & ->).
  rewrite unwrap_world. apply H.
Qed.

(** *** What comes back *)

(** [raise_for_status] raises exactly on the statuses 400 to 599. *)
Lemma raise_for_status_raises (r : Response.t) :
  is_4xx_5xx r = true ->
  ∃ msg, Response.raise_for_status r = Raised (HTTPError msg).
Proof.
  unfold is_4xx_5xx, Response.raise_for_status. intros H.
  apply andb_true_iff in H as [H1 H2].
  apply Z.leb_le in H1. apply Z.ltb_lt in H2.
  destruct (Z.ltb_spec (Response.status_code r) 500) as [Hlt|Hge].
  - replace (400 <=? Response.status_code r) with true
      by (symmetry; apply Z.leb_le; lia).
    cbn. eauto.
  - replace (500 <=? Response.status_code r) with true
      by (symmetry; apply Z.leb_le; lia).
    replace (Response.status_code r <? 600) with true
      by (symmetry; apply Z.ltb_lt; lia).
    rewrite andb_false_r. cbn. eauto.
Qed.

Lemma raise_for_status_passes (r : Response.t) :
  is_4xx_5xx r = false -> Response.raise_for_status r = Returned tt.
Proof.
  unfold is_4xx_5xx, Response.raise_for_status. intros H.
  apply andb_false_iff in H.
  destruct (Z.leb_spec 400 (Response.status_code r)),
           (Z.ltb_spec (Response.status_code r) 500),
           (Z.leb_spec 500 (Response.status_code r)),
           (Z.ltb_spec (Response.status_code r) 600);
    cbn; try reflexivity; try lia;
    destruct H as [H|H]; discriminate H.
Qed.

Lemma is_2xx_passes (r : Response.t) :
  Response.is_2xx r = true -> Response.raise_for_status r = Returned tt.
Proof.
  intros H. apply raise_for_status_passes.
  unfold Response.is_2xx in H. unfold is_4xx_5xx.
  apply andb_true_iff in H as [H1 H2].
  apply Z.leb_le in H1. apply Z.ltb_lt in H2.
  apply andb_false_iff. left. apply Z.leb_gt. lia.
Qed.

(** The world and the outcome of a public method, from the dispatcher's. *)
Lemma invoke_outcome self c w :
  ∃ method url data,
    (invoke self c w).2 = (_request self method url data w).2
    ∧ (invoke self c w).1 =
        match (_request self method url data w).1 with
        | Returned (PyDict d) => Returned (default PyNone (d !! "data"))
        | Returned _ => Raised (AttributeError "get")
        | Raised e => Raised e
        end.
Proof.
  destruct (invoke_via_request self c) as (method & url & data & ->).
  exists method, url, data. split; [apply unwrap_world | apply unwrap_outcome].
Qed.

(** The outcome of [_request] when the status is one that
    [raise_for_status] raises on. *)
Lemma _request_on_error self method url data w o st x response :
  objects w !! self = Some o ->
  sessions w !! _session o = Some st ->
  wire (_request self method url data w).2 = (wire w ++ [x])%list ->
  answer x = Returned response ->
  is_4xx_5xx response = true ->
  (_request self method url data w).1 = Returned (PyDict ∅)
  ∧ ∃ msg, Response.raise_for_status response = Raised (HTTPError msg)
           ∧ stdout (_request self method url data w).2
             = (stdout w ++ [("error:  " ++ msg)%string])%list.
Proof.
  intros Ho Hs Hw Ha He.
  destruct (_request_exchange self method url data w o st Ho Hs)
    as (x' & st' & Hw' & _ & _ & _ & _ & _ & _ & _ & Hres & Hout).
  rewrite Hw' in Hw. apply wire_last in Hw. subst x'.
  rewrite Ha in Hres, Hout.
  destruct (raise_for_status_raises response He) as [msg Hmsg].
  rewrite Hmsg in Hres, Hout. split; [exact Hres|]. eauto.
Qed.

(** The outcome of [_request] when [raise_for_status] passes. *)
Lemma _request_on_pass self method url data w o st x response :
  objects w !! self = Some o ->
  sessions w !! _session o = Some st ->
  wire (_request self method url data w).2 = (wire w ++ [x])%list ->
  answer x = Returned response ->
  Response.raise_for_status response = Returned tt ->
  (_request self method url data w).1 =
    (if negb (String.eqb (Response.text response) "")
     then Response.json response
     else Returned
            (dict_display
               [("data",
                 dict_display [("status", PyInt (Response.status_code response))])]))
  ∧ stdout (_request self method url data w).2 = stdout w.
Proof.
  intros Ho Hs Hw Ha Hp.
  destruct (_request_exchange self method url data w o st Ho Hs)
    as (x' & st' & Hw' & _ & _ & _ & _ & _ & _ & _ & Hres & Hout).
  rewrite Hw' in Hw. apply wire_last in Hw. subst x'.
  rewrite Ha in Hres, Hout. rewrite Hp in Hres, Hout. auto.
Qed.

(** C2, amended: when the status of the response is one on which
    [raise_for_status] raises (400 to 599), [_request] catches the
    [HTTPError], prints it and returns the empty mapping; the public
    method that made the call returns [None] and raises nothing. *)
Theorem http_error_swallowed self w o st :
  objects w !! self = Some o ->
  sessions w !! _session o = Some st ->
  (∀ method url data x response,
      wire (_request self method url data w).2 = (wire w ++ [x])%list ->
      answer x = Returned response ->
      is_4xx_5xx response = true ->
      (_request self method url data w).1 = Returned (PyDict ∅)
      ∧ ∃ msg, Response.raise_for_status response = Raised (HTTPError msg)
               ∧ stdout (_request self method url data w).2
                 = (stdout w ++ [("error:  " ++ msg)%string])%list)
  ∧ (∀ c x response,
      wire (invoke self c w).2 = (wire w ++ [x])%list ->
      answer x = Returned response ->
      is_4xx_5xx response = true ->
      (invoke self c w).1 = Returned PyNone).
Proof.
  intros Ho Hs. split.
  - intros method url data x response.
    exact (_request_on_error self method url data w o st x response Ho Hs).
  - intros c x response Hw Ha He.
    destruct (invoke_outcome self c w) as (method & url & data & E2 & E1).
    rewrite E2 in Hw. rewrite E1.
    destruct (_request_on_error self method url data w o st x response Ho Hs Hw Ha He)
      as [-> _].
    reflexivity.
Qed.

(** C3, amended: for every public method, the value returned when the
    status of the response is one on which [raise_for_status] raises
    (400 to 599) is [None], the value returned on any 2xx response whose
    body is not empty and decodes to a JSON object without a ["data"]
    key. *)
Theorem failure_looks_like_empty_success self c w1 w2 o1 st1 o2 st2 x1 x2 r1 r2 d :
  objects w1 !! self = Some o1 ->
  sessions w1 !! _session o1 = Some st1 ->
  objects w2 !! self = Some o2 ->
  sessions w2 !! _session o2 = Some st2 ->
  wire (invoke self c w1).2 = (wire w1 ++ [x1])%list ->
  answer x1 = Returned r1 ->
  is_4xx_5xx r1 = true ->
  wire (invoke self c w2).2 = (wire w2 ++ [x2])%list ->
  answer x2 = Returned r2 ->
  Response.is_2xx r2 = true ->
  Response.text r2 ≠ "" ->
  Response.json r2 = Returned (PyDict d) ->
  d !! "data" = None ->
  (invoke self c w1).1 = (invoke self c w2).1
  ∧ (invoke self c w1).1 = Returned PyNone.
Proof.
  intros Ho1 Hs1 Ho2 Hs2 Hw1 Ha1 He1 Hw2 Ha2 H2xx Htext Hjson Hd.
  assert (E1 : (invoke self c w1).1 = Returned PyNone).
  { destruct (invoke_outcome self c w1)
      as (method & url & data & E2 & E1).
    rewrite E2 in Hw1. rewrite E1.
    destruct (_request_on_error self method url data w1 o1 st1 x1 r1
                Ho1 Hs1 Hw1 Ha1 He1) as [-> _].
    reflexivity. }
  split; [|exact E1]. rewrite E1.
  destruct (invoke_outcome self c w2)
    as (method & url & data & E2 & E3).
  rewrite E2 in Hw2. rewrite E3.
  destruct (_request_on_pass self method url data w2 o2 st2 x2 r2
              Ho2 Hs2 Hw2 Ha2 (is_2xx_passes r2 H2xx)) as [-> _].
  apply String.eqb_neq in Htext. rewrite Htext. cbn [negb].
  rewrite Hjson. cbn. rewrite Hd. reflexivity.
Qed.

(** C4: when the response has a 2xx status and an empty body, [_request]
    returns [{"data": {"status": s}}], [s] the status code, whatever
    decoding the body would give (even an exception), and prints
    nothing; the public method that made the call returns
    [{"status": s}]. *)
Theorem empty_body_gives_status self w o st :
  objects w !! self = Some o ->
  sessions w !! _session o = Some st ->
  (∀ method url data x response,
      wire (_request self method url data w).2 = (wire w ++ [x])%list ->
      answer x = Returned response ->
      Response.is_2xx response = true ->
      Response.text response = "" ->
      (_request self method url data w).1 =
        Returned (PyDict {[ "data" :=
                    PyDict {[ "status" := PyInt (Response.status_code response) ]} ]})
      ∧ stdout (_request self method url data w).2 = stdout w)
  ∧ (∀ c x response,
      wire (invoke self c w).2 = (wire w ++ [x])%list ->
      answer x = Returned response ->
      Response.is_2xx response = true ->
      Response.text response = "" ->
      (invoke self c w).1 =
        Returned (PyDict {[ "status" := PyInt (Response.status_code response) ]})).
Proof.
  intros Ho Hs.
  assert (H : ∀ method url data x response,
      wire (_request self method url data w).2 = (wire w ++ [x])%list ->
      answer x = Returned response ->
      Response.is_2xx response = true ->
      Response.text response = "" ->
      (_request self method url data w).1 =
        Returned (PyDict {[ "data" :=
                    PyDict {[ "status" := PyInt (Response.status_code response) ]} ]})
      ∧ stdout (_request self method url data w).2 = stdout w).
  { intros method url data x response Hw Ha H2xx Htext.
    destruct (_request_on_pass self method url data w o st x response
                Ho Hs Hw Ha (is_2xx_passes response H2xx)) as [-> ->].
    rewrite Htext. split; reflexivity. }
  split; [exact H|].
  intros c x response Hw Ha H2xx Htext.
  destruct (invoke_outcome self c w) as (method & url & data & E2 & E1).
  rewrite E2 in Hw. rewrite E1.
  destruct (H method url data x response Hw Ha H2xx Htext) as [-> _].
  reflexivity.
Qed.

(** C5: every public method makes one call of [_request] and returns
    the value under ["data"] of the mapping it gets, [None] when the
    mapping has no such key; the world it leaves is the one [_request]
    left. *)
Theorem endpoint_unwraps_data self c w :
  ∃ method url data,
    invoke self c w =
      match _request self method url data w with
      | (Returned (PyDict d), w') =>
          (match d !! "data" with Some v => Returned v | None => Returned PyNone end,
           w')
      | (Returned _, w') => (Raised (AttributeError "get"), w')
      | (Raised e, w') => (Raised e, w')
      end.
Proof.
  destruct (invoke_via_request self c) as (method & url & data & ->).
  exists method, url, data. rewrite unwrap_data.
  destruct (_request self method url data w) as [[v|e] w']; [|reflexivity].
  destruct v; try reflexivity.
  destruct (d !! "data"); reflexivity.
Qed.

(** C9: from construction on, whatever calls are made on a client, its
    attributes [_jwt_token] and [_session] are the ones bound by
    [__init__], no client object changes and no session changes but the
    client's own; the same holds across a call of [_request]. *)
Theorem client_state_unchanged t w0 self w1 cs :
  __init__ t w0 = (Returned self, w1) ->
  ∃ s,
    objects w1 !! self = Some (mkLedgerX t s)
    ∧ objects (run_calls self cs w1).2 !! self = Some (mkLedgerX t s)
    ∧ objects (run_calls self cs w1).2 = objects w1
    ∧ (∀ l, l ≠ s ->
            sessions (run_calls self cs w1).2 !! l = sessions w1 !! l)
    ∧ (∀ method url data,
          objects (_request self method url data (run_calls self cs w1).2).2
          = objects w1
          ∧ ∀ l, l ≠ s ->
              sessions (_request self method url data (run_calls self cs w1).2).2 !! l
              = sessions w1 !! l).
Proof.
  intros Hinit.
  destruct (init_binds _ _ _ _ Hinit) as (s & Ho & Hs & _).
  exists s. split; [exact Ho|].
  assert (Hobj : objects (run_calls self cs w1).2 = objects w1)
    by apply run_calls_objects.
  assert (Hses : ∀ l, l ≠ s ->
                   sessions (run_calls self cs w1).2 !! l = sessions w1 !! l).
  { intros l Hl. apply run_calls_sessions.
    intros o Ho'. rewrite Ho in Ho'. injection Ho' as <-. exact Hl. }
  split; [rewrite Hobj; exact Ho|]. split; [exact Hobj|]. split; [exact Hses|].
  intros method url data. split.
  - rewrite _request_objects. exact Hobj.
  - intros l Hl. rewrite _request_sessions.
    + apply Hses, Hl.
    + intros o Ho'. rewrite Hobj, Ho in Ho'. injection Ho' as <-. exact Hl.
Qed.

End Properties.

(** ** Concrete runs *)

Example upper_mixed_case : Str.upper "dELete" = "DELETE".
Proof. reflexivity. Qed.

Example of_int_negative : Str.of_int (-42) = "-42".
Proof. reflexivity. Qed.

Example dict_display_last_wins :
  dict_display [("a", PyInt 1); ("a", PyInt 2)] = PyDict {[ "a" := PyInt 2 ]}.
Proof. reflexivity. Qed.

Example raise_for_status_404 :
  Response.raise_for_status (response_of 404 "" not_json)
  = Raised (HTTPError "404 Client Error:  for url: ").
Proof. reflexivity. Qed.

Example raise_for_status_302 :
  Response.raise_for_status (response_of 302 "" not_json) = Returned tt.
Proof. reflexivity. Qed.

(** The session is the one thing a call changes: here the script is used
    up. *)
Example session_is_used :
  let w := scripted_world [Returned (response_of 200 "" not_json)] in
  sessions w !! 1%positive = Some [Returned (response_of 200 "" not_json)]
  ∧ sessions (get_open_orders 1%positive w).2 !! 1%positive = Some [].
Proof. split; reflexivity. Qed.

(** A body that is JSON but not an object: the method raises. *)
Example list_body_raises :
  (get_open_orders 1%positive
     (scripted_world [Returned (response_of 200 "[]" (Returned (PyList [])))])).1
  = Raised (AttributeError "get").
Proof. reflexivity. Qed.

(** A [POST]: the order goes out as the JSON body, with the defaults of
    the arguments left out. *)
Example create_order_json_body :
  let run := invoke 1%positive
               (CreateOrder (IsInt 22) (PyStr "limit") (PyBool false) (PyInt 1)
                  (PyInt 5000) None None)
               (scripted_world []) in
  (sent_method <$> wire run.2) = ["POST"]
  ∧ ((λ x, sent_opts x !! "params") <$> wire run.2) = [None]
  ∧ ((λ x, sent_opts x !! "json") <$> wire run.2)
    = [Some (dict_display
               [("contract_id", PyInt 22); ("order_type", PyStr "limit");
                ("is_ask", PyBool false); ("size", PyInt 1); ("price", PyInt 5000);
                ("volatile", PyBool false); ("swap_purpose", PyStr "undisclosed")])].
Proof. repeat split; reflexivity. Qed.

(** Contract ids are formatted into the URL. *)
Example book_state_url :
  (sent_url <$> wire (get_current_book_state 1%positive (IsInt 22210003)
                        (scripted_world [])).2)
  = ["https://trade.ledgerx.com/api/book-states/22210003"].
Proof. reflexivity. Qed.

(** A lower-case [delete] on the scripted client: the data is in the query
    string. *)
Lemma request_places_data_witness :
  let w := scripted_world [] in
  objects w !! 1%positive = Some tok_client
  ∧ sessions w !! 1%positive = Some []
  ∧ ∃ x,
      wire (_request 1%positive "delete" "https://trade.ledgerx.com/api/orders"
              PyNone w).2 = (wire w ++ [x])%list
      ∧ sent_opts x !! "params" = Some PyNone
      ∧ sent_opts x !! "json" = None.
Proof.
  intros w. split; [reflexivity|]. split; [reflexivity|].
  destruct (request_places_data 1%positive "delete"
              "https://trade.ledgerx.com/api/orders" PyNone w tok_client []
              eq_refl eq_refl)
    as (x & Hw & _ & _ & Hquery & _).
  exists x. split; [exact Hw|]. apply Hquery. right. reflexivity.
Defined.

(** Replacing order [m1] on contract 22. *)
Lemma patch_order_in_query_string_witness :
  let w := scripted_world [] in
  objects w !! 1%positive = Some tok_client
  ∧ sessions w !! 1%positive = Some []
  ∧ ∃ x,
      wire (patch_order 1%positive "m1" (IsInt 22) (PyInt 100) (PyInt 3) w).2
      = (wire w ++ [x])%list
      ∧ sent_method x = "DELETE"
      ∧ sent_url x = "https://trade.ledgerx.com/api/orders/m1/edit"
      ∧ sent_opts x !! "json" = None.
Proof.
  intros w. split; [reflexivity|]. split; [reflexivity|].
  destruct (patch_order_in_query_string 1%positive "m1" (IsInt 22) (PyInt 100) (PyInt 3)
              w tok_client [] eq_refl eq_refl)
    as (x & Hw & Hm & Hu & _ & Hj).
  exists x. auto.
Defined.

(** The call of [main.py], with the arguments it leaves out as [None]. *)
Lemma get_contracts_parameters_witness :
  let w := scripted_world [] in
  objects w !! 1%positive = Some tok_client
  ∧ sessions w !! 1%positive = Some []
  ∧ ∃ x params,
      wire (get_contracts 1%positive (PyStr "true") PyNone (PyStr "future_contract")
              PyNone PyNone PyNone (PyInt 5) PyNone w).2 = (wire w ++ [x])%list
      ∧ sent_opts x !! "params" = Some (PyDict params)
      ∧ params !! "active" = Some (PyStr "true")
      ∧ params !! "contract_type" = Some PyNone
      ∧ params !! "limit" = Some (PyInt 5).
Proof.
  intros w. split; [reflexivity|]. split; [reflexivity|].
  destruct (get_contracts_parameters 1%positive (PyStr "true") PyNone
              (PyStr "future_contract") PyNone PyNone PyNone (PyInt 5) PyNone
              w tok_client [] eq_refl eq_refl)
    as (x & params & Hw & _ & _ & Hp & _ & Ha & Hc & _ & _ & _ & _ & Hl & _).
  exists x, params. auto.
Defined.

(** Cancelling all orders: the request does not follow redirects. *)
Lemma redirects_disabled_witness :
  let w := scripted_world [] in
  objects w !! 1%positive = Some tok_client
  ∧ sessions w !! 1%positive = Some []
  ∧ ∃ x,
      wire (invoke 1%positive DeleteAllOrders w).2 = (wire w ++ [x])%list
      ∧ sent_opts x !! "allow_redirects" = Some (PyBool false).
Proof.
  intros w. split; [reflexivity|]. split; [reflexivity|].
  exact (proj2 (redirects_disabled 1%positive w tok_client [] eq_refl eq_refl)
           DeleteAllOrders).
Defined.

(** A client built with token [secret], two calls later. *)
Lemma authorization_header_witness :
  let w1 := (__init__ "secret" empty_world).2 in
  let cs := [GetOpenOrders; DeleteAllOrders] in
  __init__ "secret" empty_world = (Returned 1%positive, w1)
  ∧ ∃ x,
      wire (invoke 1%positive (GetPositions None None) (run_calls 1%positive cs w1).2).2
      = (wire (run_calls 1%positive cs w1).2 ++ [x])%list
      ∧ sent_header x "Authorization" = Some (PyStr "JWT secret").
Proof.
  intros w1 cs. split; [reflexivity|].
  destruct (proj2 (authorization_header "secret" empty_world 1%positive w1 cs eq_refl)
              (GetPositions None None))
    as (x & Hw & _ & Hh).
  exists x. auto.
Defined.

(** The same client keeps its token after the two calls. *)
Lemma client_state_unchanged_witness :
  let w1 := (__init__ "secret" empty_world).2 in
  let cs := [GetOpenOrders; DeleteAllOrders] in
  __init__ "secret" empty_world = (Returned 1%positive, w1)
  ∧ ∃ s, objects (run_calls 1%positive cs w1).2 !! 1%positive
         = Some (mkLedgerX "secret" s).
Proof.
  intros w1 cs. split; [reflexivity|].
  destruct (client_state_unchanged "secret" empty_world 1%positive w1 cs eq_refl)
    as (s & _ & H & _).
  exists s. exact H.
Defined.

(** A 404 on the open orders: the caller gets [None]. *)
Lemma http_error_swallowed_witness :
  let r := response_of 404 "Not Found" not_json in
  let w := scripted_world [Returned r] in
  let x := mkExchange 1%positive "GET" "https://trade.ledgerx.com/api/open-orders"
             (<["params" := PyNone]>
                (<["allow_redirects" := PyBool false]>
                   (<["headers" := PyDict {[ "Authorization" := PyStr "JWT tok" ]}]> ∅)))
             (Returned r) in
  objects w !! 1%positive = Some tok_client
  ∧ sessions w !! 1%positive = Some [Returned r]
  ∧ wire (invoke 1%positive GetOpenOrders w).2 = (wire w ++ [x])%list
  ∧ answer x = Returned r
  ∧ is_4xx_5xx r = true
  ∧ (invoke 1%positive GetOpenOrders w).1 = Returned PyNone.
Proof.
  intros r w x. repeat (split; [reflexivity|]).
  exact (proj2 (http_error_swallowed 1%positive w tok_client [Returned r]
                  eq_refl eq_refl)
           GetOpenOrders x r eq_refl eq_refl eq_refl).
Defined.

(** A 500 and a 200 with the body [{}] give the caller the same value. *)
Lemma failure_looks_like_empty_success_witness :
  let r1 := response_of 500 "oops" not_json in
  let r2 := response_of 200 "{}" (Returned (PyDict ∅)) in
  let w1 := scripted_world [Returned r1] in
  let w2 := scripted_world [Returned r2] in
  let url := "https://trade.ledgerx.com/api/open-orders" in
  let x1 := mkExchange 1%positive "GET" url tok_query_opts (Returned r1) in
  let x2 := mkExchange 1%positive "GET" url tok_query_opts (Returned r2) in
  (objects w1 !! 1%positive = Some tok_client
   ∧ sessions w1 !! 1%positive = Some [Returned r1]
   ∧ objects w2 !! 1%positive = Some tok_client
   ∧ sessions w2 !! 1%positive = Some [Returned r2])
  ∧ (wire (invoke 1%positive GetOpenOrders w1).2 = (wire w1 ++ [x1])%list
     ∧ answer x1 = Returned r1
     ∧ is_4xx_5xx r1 = true)
  ∧ (wire (invoke 1%positive GetOpenOrders w2).2 = (wire w2 ++ [x2])%list
     ∧ answer x2 = Returned r2
     ∧ Response.is_2xx r2 = true
     ∧ Response.text r2 ≠ ""
     ∧ Response.json r2 = Returned (PyDict ∅)
     ∧ (∅ : gmap string PyVal) !! "data" = None)
  ∧ (invoke 1%positive GetOpenOrders w1).1 = (invoke 1%positive GetOpenOrders w2).1
  ∧ (invoke 1%positive GetOpenOrders w1).1 = Returned PyNone.
Proof.
  intros r1 r2 w1 w2 url x1 x2.
  assert (Htext : Response.text r2 ≠ "") by (intros H; discriminate H).
  split; [repeat split; reflexivity|].
  split; [repeat split; reflexivity|].
  split; [repeat split; try reflexivity; exact Htext|].
  exact (failure_looks_like_empty_success 1%positive GetOpenOrders w1 w2
           tok_client [Returned r1] tok_client [Returned r2] x1 x2 r1 r2 ∅
           eq_refl eq_refl eq_refl eq_refl eq_refl eq_refl eq_refl
           eq_refl eq_refl eq_refl Htext eq_refl eq_refl).
Defined.

(** A 204 with no body on cancelling all orders. *)
Lemma empty_body_gives_status_witness :
  let r := response_of 204 "" not_json in
  let w := scripted_world [Returned r] in
  let x := mkExchange 1%positive "DELETE" "https://trade.ledgerx.com/api/orders"
             tok_query_opts (Returned r) in
  objects w !! 1%positive = Some tok_client
  ∧ sessions w !! 1%positive = Some [Returned r]
  ∧ wire (invoke 1%positive DeleteAllOrders w).2 = (wire w ++ [x])%list
  ∧ answer x = Returned r
  ∧ Response.is_2xx r = true
  ∧ Response.text r = ""
  ∧ (invoke 1%positive DeleteAllOrders w).1
    = Returned (PyDict {[ "status" := PyInt 204 ]}).
Proof.
  intros r w x. repeat (split; [reflexivity|]).
  exact (proj2 (empty_body_gives_status 1%positive w tok_client [Returned r]
                  eq_refl eq_refl)
           DeleteAllOrders x r eq_refl eq_refl eq_refl eq_refl).
Defined.

(** C2 as stated fails on a redirect: 302 is not a 2xx status, and with
    redirects not followed the response reaches [_request] as it is;
    [raise_for_status] passes, nothing is printed, and the result is the
    status payload, not the empty mapping. *)
Lemma redirect_not_swallowed :
  let r := response_of 302 "" not_json in
  let w := scripted_world [Returned r] in
  let run := _request 1%positive "GET" "https://api.ledgerx.com/trading/contracts"
               PyNone w in
  Response.is_2xx r = false
  ∧ wire run.2
    = [mkExchange 1%positive "GET" "https://api.ledgerx.com/trading/contracts"
         tok_query_opts (Returned r)]
  ∧ run.1 = Returned (PyDict {[ "data" := PyDict {[ "status" := PyInt 302 ]} ]})
  ∧ run.1 ≠ Returned (PyDict ∅)
  ∧ stdout run.2 = [].
Proof.
  intros r w run. repeat (split; [reflexivity|]). split; [|reflexivity].
  intros H. vm_compute in H. discriminate H.
Qed.

(** C3 as stated fails on a redirect: [get_contracts] returns
    [{"status": 302}] on a 302 with an empty body, and [None] on a 200
    whose JSON object has no ["data"] key. *)
Lemma redirect_distinguishable :
  let r1 := response_of 302 "" not_json in
  let r2 := response_of 200 "{}" (Returned (PyDict ∅)) in
  let c := GetContracts (Some (PyStr "true")) None None None None None None None in
  let run1 := invoke 1%positive c (scripted_world [Returned r1]) in
  let run2 := invoke 1%positive c (scripted_world [Returned r2]) in
  Response.is_2xx r1 = false
  ∧ Response.is_2xx r2 = true
  ∧ Response.json r2 = Returned (PyDict ∅)
  ∧ (answer <$> wire run1.2) = [Returned r1]
  ∧ (answer <$> wire run2.2) = [Returned r2]
  ∧ run1.1 = Returned (PyDict {[ "status" := PyInt 302 ]})
  ∧ run2.1 = Returned PyNone
  ∧ run1.1 ≠ run2.1.
Proof.
  intros r1 r2 c run1 run2. repeat (split; [reflexivity|]).
  intros H. vm_compute in H. discriminate H.
Qed.

(** ** Further behaviour of the client *)

Section Behaviour.
Context {Sess : Type} `{!Transport Sess}.

Implicit Types (w : World Sess) (self : loc) (o : LedgerXObj) (st : Sess).
Implicit Types (method url : string) (data : PyVal) (c : Call).

(** One public call on a live client, seen from outside: the exchange it
    adds to the wire, and the outcome and the output read off the answer. *)
Lemma invoke_trace self c w o st :
  objects w !! self = Some o ->
  sessions w !! _session o = Some st ->
  ∃ x,
    wire (invoke self c w).2 = (wire w ++ [x])%list
    ∧ sent_session x = _session o
    ∧ (invoke self c w).1 =
        match answer x with
        | Raised e => Raised e
        | Returned response =>
            match Response.raise_for_status response with
            | Raised (HTTPError _) => Returned PyNone
            | Raised e => Raised e
            | Returned _ =>
                if negb (String.eqb (Response.text response) "")
                then match Response.json response with
                     | Returned (PyDict d) => Returned (default PyNone (d !! "data"))
                     | Returned _ => Raised (AttributeError "get")
                     | Raised e => Raised e
                     end
                else Returned
                       (PyDict {[ "status" := PyInt (Response.status_code response) ]})
            end
        end
    ∧ stdout (invoke self c w).2 =
        match answer x with
        | Returned response =>
            match Response.raise_for_status response with
            | Raised (HTTPError msg) => (stdout w ++ [("error:  " ++ msg)%string])%list
            | _ => stdout w
            end
        | Raised _ => stdout w
        end.
Proof.
  intros Ho Hs.
  destruct (invoke_outcome self c w) as (method & url & data & E2 & E1).
  destruct (_request_exchange self method url data w o st Ho Hs)
    as (x & st' & Hw & Hse & _ & _ & _ & _ & _ & _ & Hres & Hout).
  exists x. rewrite E2, E1, Hres. split; [exact Hw|]. split; [exact Hse|].
  split; [|exact Hout].
  destruct (answer x) as [response|e]; [|reflexivity].
  destruct (Response.raise_for_status response) as [[]|[]]; try reflexivity.
  destruct (Response.text response =? "")%string; cbn [negb]; [reflexivity|].
  destruct (Response.json response) as [v|e]; reflexivity.
Qed.

(** The same, for the exchange a caller reads back from the wire. *)
Lemma invoke_trace_at self c w o st x :
  objects w !! self = Some o ->
  sessions w !! _session o = Some st ->
  wire (invoke self c w).2 = (wire w ++ [x])%list ->
  (invoke self c w).1 =
    match answer x with
    | Raised e => Raised e
    | Returned response =>
        match Response.raise_for_status response with
        | Raised (HTTPError _) => Returned PyNone
        | Raised e => Raised e
        | Returned _ =>
            if negb (String.eqb (Response.text response) "")
            then match Response.json response with
                 | Returned (PyDict d) => Returned (default PyNone (d !! "data"))
                 | Returned _ => Raised (AttributeError "get")
                 | Raised e => Raised e
                 end
            else Returned
                   (PyDict {[ "status" := PyInt (Response.status_code response) ]})
        end
    end
  ∧ stdout (invoke self c w).2 =
      match answer x with
      | Returned response =>
          match Response.raise_for_status response with
          | Raised (HTTPError msg) => (stdout w ++ [("error:  " ++ msg)%string])%list
          | _ => stdout w
          end
      | Raised _ => stdout w
      end.
Proof.
  intros Ho Hs Hw.
  destruct (invoke_trace self c w o st Ho Hs) as (x' & Hw' & _ & Hres & Hout).
  rewrite Hw' in Hw. apply wire_last in Hw. subst x'. auto.
Qed.


(** X2: What the session raises while sending (a connection error, a
    timeout) is not caught: the call raises it, and prints nothing. *)
Theorem transport_error_propagates self c w o st x e :
  objects w !! self = Some o ->
  sessions w !! _session o = Some st ->
  wire (invoke self c w).2 = (wire w ++ [x])%list ->
  answer x = Raised e ->
  (invoke self c w).1 = Raised e
  ∧ stdout (invoke self c w).2 = stdout w.
Proof.
  intros Ho Hs Hw Ha.
  destruct (invoke_trace_at self c w o st x Ho Hs Hw) as [Hres Hout].
  rewrite Ha in Hres, Hout. auto.
Qed.

(** X3: A body that is not empty and does not decode, under a status outside
    400 to 599: the decoder's exception reaches the caller; the handler
    for [HTTPError] does not cover it. *)
Theorem decode_error_propagates self c w o st x response e :
  objects w !! self = Some o ->
  sessions w !! _session o = Some st ->
  wire (invoke self c w).2 = (wire w ++ [x])%list ->
  answer x = Returned response ->
  is_4xx_5xx response = false ->
  Response.text response ≠ "" ->
  Response.json response = Raised e ->
  (invoke self c w).1 = Raised e
  ∧ stdout (invoke self c w).2 = stdout w.
Proof.
  intros Ho Hs Hw Ha Hst Htext Hjson.
  destruct (invoke_trace_at self c w o st x Ho Hs Hw) as [Hres Hout].
  rewrite Ha, (raise_for_status_passes response Hst) in Hres, Hout.
  apply String.eqb_neq in Htext. rewrite Htext, Hjson in Hres. auto.
Qed.

(** X4: A body that decodes to something other than a mapping (a list, a
    number, a string, [null]): the public method raises [AttributeError],
    for such a value has no [get]. *)
Theorem non_mapping_body_raises self c w o st x response v :
  objects w !! self = Some o ->
  sessions w !! _session o = Some st ->
  wire (invoke self c w).2 = (wire w ++ [x])%list ->
  answer x = Returned response ->
  is_4xx_5xx response = false ->
  Response.text response ≠ "" ->
  Response.json response = Returned v ->
  (∀ d, v ≠ PyDict d) ->
  (invoke self c w).1 = Raised (AttributeError "get").
Proof.
  intros Ho Hs Hw Ha Hst Htext Hjson Hv.
  destruct (invoke_trace_at self c w o st x Ho Hs Hw) as [Hres _].
  rewrite Ha, (raise_for_status_passes response Hst) in Hres.
  apply String.eqb_neq in Htext. rewrite Htext, Hjson in Hres. rewrite Hres.
  destruct v; try reflexivity. destruct (Hv d eq_refl).
Qed.

(** X5: Under every status outside 400 to 599 (so 1xx and 3xx as well as
    2xx), a body that decodes to a mapping gives the caller the value
    under ["data"] as it is, and nothing is printed. *)
Theorem data_passed_through self c w o st x response d v :
  objects w !! self = Some o ->
  sessions w !! _session o = Some st ->
  wire (invoke self c w).2 = (wire w ++ [x])%list ->
  answer x = Returned response ->
  is_4xx_5xx response = false ->
  Response.text response ≠ "" ->
  Response.json response = Returned (PyDict d) ->
  d !! "data" = Some v ->
  (invoke self c w).1 = Returned v
  ∧ stdout (invoke self c w).2 = stdout w.
Proof.
  intros Ho Hs Hw Ha Hst Htext Hjson Hd.
  destruct (invoke_trace_at self c w o st x Ho Hs Hw) as [Hres Hout].
  rewrite Ha, (raise_for_status_passes response Hst) in Hres, Hout.
  apply String.eqb_neq in Htext. rewrite Htext, Hjson in Hres. cbn in Hres.
  rewrite Hd in Hres. auto.
Qed.

(** X6: Under every status outside 400 to 599, an empty body gives the caller
    [{"status": s}]: a redirect that was not followed comes back as a
    result. *)
Theorem empty_body_any_passing_status self c w o st x response :
  objects w !! self = Some o ->
  sessions w !! _session o = Some st ->
  wire (invoke self c w).2 = (wire w ++ [x])%list ->
  answer x = Returned response ->
  is_4xx_5xx response = false ->
  Response.text response = "" ->
  (invoke self c w).1
  = Returned (PyDict {[ "status" := PyInt (Response.status_code response) ]})
  ∧ stdout (invoke self c w).2 = stdout w.
Proof.
  intros Ho Hs Hw Ha Hst Htext.
  destruct (invoke_trace_at self c w o st x Ho Hs Hw) as [Hres Hout].
  rewrite Ha, (raise_for_status_passes response Hst) in Hres, Hout.
  rewrite Htext in Hres. auto.
Qed.

(** The message of the [HTTPError] that [raise_for_status] raises. *)
Lemma raise_for_status_message (r : Response.t) :
  is_4xx_5xx r = true ->
  Response.raise_for_status r =
    Raised (HTTPError
              (Str.of_int (Response.status_code r)
                 ++ (if Response.status_code r <? 500
                     then " Client Error: " else " Server Error: ")
                 ++ Response.reason r ++ " for url: " ++ Response.url r)).
Proof.
  unfold is_4xx_5xx, Response.raise_for_status. intros H.
  apply andb_true_iff in H as [H1 H2]. rewrite H1, H2.
  destruct (Response.status_code r <? 500) eqn:E; cbn [andb]; [reflexivity|].
  apply Z.ltb_ge in E.
  replace (500 <=? Response.status_code r) with true
    by (symmetry; apply Z.leb_le; lia).
  reflexivity.
Qed.

(** X7: A call prints exactly when the status is from 400 to 599, and then
    one line: [error:], two spaces, and the message of the [HTTPError]
    (status, [Client Error] under 500 and [Server Error] from 500 on,
    reason and URL of the response). *)
Theorem prints_only_on_http_error self c w o st x :
  objects w !! self = Some o ->
  sessions w !! _session o = Some st ->
  wire (invoke self c w).2 = (wire w ++ [x])%list ->
  stdout (invoke self c w).2 =
    match answer x with
    | Returned response =>
        if is_4xx_5xx response
        then (stdout w ++
                [("error:  " ++ Str.of_int (Response.status_code response)
                    ++ (if (Response.status_code response <? 500)%Z
                        then " Client Error: " else " Server Error: ")
                    ++ Response.reason response ++ " for url: "
                    ++ Response.url response)%string])%list
        else stdout w
    | Raised _ => stdout w
    end.
Proof.
  intros Ho Hs Hw.
  destruct (invoke_trace_at self c w o st x Ho Hs Hw) as [_ Hout].
  rewrite Hout. destruct (answer x) as [response|e]; [|reflexivity].
  destruct (is_4xx_5xx response) eqn:E.
  - rewrite (raise_for_status_message response E). reflexivity.
  - rewrite (raise_for_status_passes response E). reflexivity.
Qed.

(** X8: What a call gives its caller depends on the answer alone: two calls,
    of any methods, with any arguments, on any clients, that get the same
    answer have the same outcome. *)
Theorem outcome_depends_on_answer_only
    self1 c1 w1 o1 st1 x1 self2 c2 w2 o2 st2 x2 :
  objects w1 !! self1 = Some o1 ->
  sessions w1 !! _session o1 = Some st1 ->
  objects w2 !! self2 = Some o2 ->
  sessions w2 !! _session o2 = Some st2 ->
  wire (invoke self1 c1 w1).2 = (wire w1 ++ [x1])%list ->
  wire (invoke self2 c2 w2).2 = (wire w2 ++ [x2])%list ->
  answer x1 = answer x2 ->
  (invoke self1 c1 w1).1 = (invoke self2 c2 w2).1.
Proof.
  intros Ho1 Hs1 Ho2 Hs2 Hw1 Hw2 Ha.
  destruct (invoke_trace_at self1 c1 w1 o1 st1 x1 Ho1 Hs1 Hw1) as [-> _].
  destruct (invoke_trace_at self2 c2 w2 o2 st2 x2 Ho2 Hs2 Hw2) as [-> _].
  rewrite Ha. reflexivity.
Qed.

(** X9: The token goes nowhere but the headers: the same call on two clients
    (of any tokens, in any worlds) sends the same method, the same URL and
    the same options apart from [headers]. *)
Theorem token_only_in_header self1 self2 c w1 w2 o1 st1 o2 st2 x1 x2 :
  objects w1 !! self1 = Some o1 ->
  sessions w1 !! _session o1 = Some st1 ->
  objects w2 !! self2 = Some o2 ->
  sessions w2 !! _session o2 = Some st2 ->
  wire (invoke self1 c w1).2 = (wire w1 ++ [x1])%list ->
  wire (invoke self2 c w2).2 = (wire w2 ++ [x2])%list ->
  sent_method x1 = sent_method x2
  ∧ sent_url x1 = sent_url x2
  ∧ ∀ k, k ≠ "headers" -> sent_opts x1 !! k = sent_opts x2 !! k.
Proof.
  intros Ho1 Hs1 Ho2 Hs2 Hw1 Hw2.
  assert (E : ∃ method url data,
             invoke self1 c = (_request self1 method url data
                                 ≫= (λ response, py_get response "data"))
             ∧ invoke self2 c = (_request self2 method url data
                                   ≫= (λ response, py_get response "data"))).
  { destruct c; do 3 eexists; split; reflexivity. }
  destruct E as (method & url & data & E1 & E2).
  rewrite E1, unwrap_world in Hw1. rewrite E2, unwrap_world in Hw2.
  destruct (_request_exchange self1 method url data w1 o1 st1 Ho1 Hs1)
    as (y1 & ? & Hy1 & _ & Hm1 & Hu1 & Hopts1 & _).
  destruct (_request_exchange self2 method url data w2 o2 st2 Ho2 Hs2)
    as (y2 & ? & Hy2 & _ & Hm2 & Hu2 & Hopts2 & _).
  rewrite Hy1 in Hw1. apply wire_last in Hw1. subst y1.
  rewrite Hy2 in Hw2. apply wire_last in Hw2. subst y2.
  split; [congruence|]. split; [congruence|].
  intros k Hk. rewrite Hopts1, Hopts2.
  destruct (Str.in_list _ _);
    rewrite !lookup_insert; repeat case_decide; congruence.
Qed.

(** The request of the call in the goal, with its method, URL and
    options. *)
Ltac request_of_call Ho Hs x Hw Hm Hu Hopts :=
  cbn [invoke];
  unfold get_contracts, get_traded_contracts, get_contract_details,
    get_contract_position, get_contract_ticker, get_positions,
    get_trades_for_position, get_open_orders, create_order, delete_all_orders,
    delete_single_order, patch_order, get_current_book_state;
  rewrite unwrap_world;
  match goal with
  | |- context [_request ?self ?m ?u ?d ?w] =>
      destruct (_request_exchange self m u d w _ _ Ho Hs)
        as (x & ? & Hw & _ & Hm & Hu & Hopts & _)
  end.

(** X10: Which verb each method uses and where its parameters travel: the
    order placement is the one [POST] and the one request with a JSON body;
    the two cancellations and the replacement are [DELETE]s; every other
    method is a [GET]; and the methods that build no mapping send [None]
    as their query-string parameters. *)
Theorem verb_and_placement_by_call self c w o st :
  objects w !! self = Some o ->
  sessions w !! _session o = Some st ->
  ∃ x,
    wire (invoke self c w).2 = (wire w ++ [x])%list
    ∧ sent_method x =
        match c with
        | CreateOrder _ _ _ _ _ _ _ => "POST"
        | DeleteAllOrders | DeleteSingleOrder _ _ | PatchOrder _ _ _ _ => "DELETE"
        | _ => "GET"
        end
    ∧ match c with
      | CreateOrder _ _ _ _ _ _ _ =>
          sent_opts x !! "params" = None
          ∧ ∃ body, sent_opts x !! "json" = Some (PyDict body)
      | GetContractDetails _ | GetContractPosition _ | GetTradesForPosition _
      | GetOpenOrders | DeleteAllOrders | GetCurrentBookState _ =>
          sent_opts x !! "json" = None
          ∧ sent_opts x !! "params" = Some PyNone
      | _ =>
          sent_opts x !! "json" = None
          ∧ ∃ params, sent_opts x !! "params" = Some (PyDict params)
      end.
Proof.
  intros Ho Hs.
  destruct c; request_of_call Ho Hs x Hw Hm Hu Hopts;
    exists x; (split; [exact Hw|]); (split; [exact Hm|]);
    rewrite Hopts; split; try reflexivity; eexists; reflexivity.
Qed.

(** X11: Every request goes over https to one of the two hosts of the
    exchange, whatever the arguments: contracts and positions to
    [api.ledgerx.com/trading], orders and book states to
    [trade.ledgerx.com/api]. *)
Theorem requests_go_to_two_hosts self c w o st :
  objects w !! self = Some o ->
  sessions w !! _session o = Some st ->
  ∃ x,
    wire (invoke self c w).2 = (wire w ++ [x])%list
    ∧ String.prefix
        match c with
        | GetOpenOrders | CreateOrder _ _ _ _ _ _ _ | DeleteAllOrders
        | DeleteSingleOrder _ _ | PatchOrder _ _ _ _ | GetCurrentBookState _ =>
            "https://trade.ledgerx.com/api/"
        | _ => "https://api.ledgerx.com/trading/"
        end
        (sent_url x) = true.
Proof.
  intros Ho Hs.
  destruct c; request_of_call Ho Hs x Hw Hm Hu Hopts;
    exists x; (split; [exact Hw|]); rewrite Hu; reflexivity.
Qed.

(** X12: An order goes out as a JSON body of exactly seven entries, to
    [https://trade.ledgerx.com/api/orders]: the five arguments the caller
    must give, as given, and [volatile] and [swap_purpose], which are
    [False] and ["undisclosed"] when left out and the caller's values
    otherwise. *)
Theorem create_order_body self contract_id order_type is_ask size price
    volatile swap_purpose w o st :
  objects w !! self = Some o ->
  sessions w !! _session o = Some st ->
  ∃ x (body : gmap string PyVal),
    wire (invoke self
            (CreateOrder contract_id order_type is_ask size price volatile swap_purpose)
            w).2 = (wire w ++ [x])%list
    ∧ sent_url x = "https://trade.ledgerx.com/api/orders"
    ∧ sent_opts x !! "json" = Some (PyDict body)
    ∧ dom body =
        ({[ "contract_id"; "order_type"; "is_ask"; "size"; "price";
            "volatile"; "swap_purpose" ]} : gset string)
    ∧ body !! "contract_id" = Some (to_py contract_id)
    ∧ body !! "order_type" = Some order_type
    ∧ body !! "is_ask" = Some is_ask
    ∧ body !! "size" = Some size
    ∧ body !! "price" = Some price
    ∧ body !! "volatile"
      = Some (match volatile with Some v => v | None => PyBool false end)
    ∧ body !! "swap_purpose"
      = Some (match swap_purpose with Some v => v | None => PyStr "undisclosed" end).
Proof.
  intros Ho Hs. request_of_call Ho Hs x Hw Hm Hu Hopts.
  exists x. eexists. split; [exact Hw|]. split; [exact Hu|].
  rewrite Hopts. split; [reflexivity|]. split.
  - cbn [fold_left fst snd]. rewrite !dom_insert_L, dom_empty_L. set_solver.
  - destruct volatile, swap_purpose; repeat split; reflexivity.
Qed.

(** X13: A contract id is put into the URL as it is, with no escaping: a
    string id that ends in [/position] makes [get_contract_details] the
    very call [get_contract_position] makes for the id before it: same
    request, same outcome, same world. *)
Theorem id_with_path_reaches_other_endpoint self (contract_id : str_or_int) w :
  invoke self (GetContractDetails (IsStr (format contract_id ++ "/position"))) w
  = invoke self (GetContractPosition contract_id) w.
Proof. reflexivity. Qed.

(** [str] of an integer tells the integer. *)
Lemma of_int_inj (a b : Z) : Str.of_int a = Str.of_int b -> a = b.
Proof.
  unfold Str.of_int. intros H.
  assert (Hn : ∀ z, Z.to_int z ≠ Decimal.Pos Decimal.Nil
                    ∧ Z.to_int z ≠ Decimal.Neg Decimal.Nil).
  { intros [|p|p]; cbn; split; try discriminate;
      intros E; injection E as E; exact (DecimalPos.Unsigned.to_uint_nonnil p E). }
  apply DecimalZ.to_int_inj.
  assert (E : NilZero.int_of_string (NilZero.string_of_int (Z.to_int a))
              = NilZero.int_of_string (NilZero.string_of_int (Z.to_int b)))
    by (rewrite H; reflexivity).
  rewrite !NilZero.isi in E by apply Hn.
  injection E as E. exact E.
Qed.

(** X14: Integer contract ids never collide: two book-state requests (or two
    contract-detail requests) with the same URL are for the same id. *)
Theorem integer_ids_give_distinct_urls self a b w1 w2 o1 st1 o2 st2 :
  objects w1 !! self = Some o1 ->
  sessions w1 !! _session o1 = Some st1 ->
  objects w2 !! self = Some o2 ->
  sessions w2 !! _session o2 = Some st2 ->
  (∀ x1 x2,
      wire (invoke self (GetCurrentBookState (IsInt a)) w1).2 = (wire w1 ++ [x1])%list ->
      wire (invoke self (GetCurrentBookState (IsInt b)) w2).2 = (wire w2 ++ [x2])%list ->
      sent_url x1 = sent_url x2 -> a = b)
  ∧ (∀ x1 x2,
      wire (invoke self (GetContractDetails (IsInt a)) w1).2 = (wire w1 ++ [x1])%list ->
      wire (invoke self (GetContractDetails (IsInt b)) w2).2 = (wire w2 ++ [x2])%list ->
      sent_url x1 = sent_url x2 -> a = b).
Proof.
  intros Ho1 Hs1 Ho2 Hs2. split; intros x1 x2 H1 H2 Hurl.
  - revert H1. request_of_call Ho1 Hs1 y1 Hw1 Hm1 Hu1 Hopts1. intros H1.
    revert H2. request_of_call Ho2 Hs2 y2 Hw2 Hm2 Hu2 Hopts2. intros H2.
    rewrite Hw1 in H1. apply wire_last in H1. subst y1.
    rewrite Hw2 in H2. apply wire_last in H2. subst y2.
    rewrite Hu1, Hu2 in Hurl. apply (inj (String.append _)) in Hurl.
    apply of_int_inj. exact Hurl.
  - revert H1. request_of_call Ho1 Hs1 y1 Hw1 Hm1 Hu1 Hopts1. intros H1.
    revert H2. request_of_call Ho2 Hs2 y2 Hw2 Hm2 Hu2 Hopts2. intros H2.
    rewrite Hw1 in H1. apply wire_last in H1. subst y1.
    rewrite Hw2 in H2. apply wire_last in H2. subst y2.
    rewrite Hu1, Hu2 in Hurl. apply (inj (String.append _)) in Hurl.
    apply of_int_inj. exact Hurl.
Qed.

(** *** Several clients *)

(** All that construction does. *)
Lemma init_effect jwt_token w0 self w1 :
  __init__ jwt_token w0 = (Returned self, w1) ->
  ∃ s,
    objects w1 = <[self := mkLedgerX jwt_token s]> (objects w0)
    ∧ sessions w1 = <[s := Session_new]> (sessions w0)
    ∧ wire w1 = wire w0
    ∧ stdout w1 = stdout w0
    ∧ objects w0 !! self = None
    ∧ sessions w0 !! s = None.
Proof.
  unfold __init__. intros H. injection H as <- <-. cbn.
  exists (fresh (dom (sessions w0))). repeat split.
  - apply not_elem_of_dom, is_fresh.
  - apply not_elem_of_dom, is_fresh.
Qed.

(** Calls in a row on one client: all their requests go through that
    client's session. *)
Lemma run_calls_wire self cs w o st :
  objects w !! self = Some o ->
  sessions w !! _session o = Some st ->
  ∃ xs,
    wire (run_calls self cs w).2 = (wire w ++ xs)%list
    ∧ Forall (λ x, sent_session x = _session o) xs.
Proof.
  revert w st. induction cs as [|c cs IH]; intros w st Ho Hs.
  - exists []. rewrite app_nil_r. split; [reflexivity|constructor].
  - rewrite run_calls_cons.
    destruct (invoke_trace self c w o st Ho Hs) as (x & Hw & Hse & _).
    destruct (invoke_session_live self c w (_session o)) as [st1 Hs1]; [eauto|].
    destruct (IH (invoke self c w).2 st1) as (xs & Hxs & Hall).
    + rewrite invoke_objects. exact Ho.
    + exact Hs1.
    + exists (x :: xs). rewrite Hxs, Hw, <- app_assoc. split; [reflexivity|].
      constructor; assumption.
Qed.

(** X15: Two clients share nothing: each construction makes a new object with
    a session of its own, sends nothing and prints nothing; and whatever
    calls are made on the first client, they all go through its session
    and leave the second client and its session as they were. *)
Theorem clients_are_isolated t1 t2 w0 a w1 b w2 cs :
  __init__ t1 w0 = (Returned a, w1) ->
  __init__ t2 w1 = (Returned b, w2) ->
  ∃ sa sb xs,
    a ≠ b ∧ sa ≠ sb
    ∧ objects w2 !! a = Some (mkLedgerX t1 sa)
    ∧ objects w2 !! b = Some (mkLedgerX t2 sb)
    ∧ wire w2 = wire w0 ∧ stdout w2 = stdout w0
    ∧ wire (run_calls a cs w2).2 = (wire w2 ++ xs)%list
    ∧ Forall (λ x, sent_session x = sa) xs
    ∧ objects (run_calls a cs w2).2 !! b = Some (mkLedgerX t2 sb)
    ∧ sessions (run_calls a cs w2).2 !! sb = Some Session_new.
Proof.
  intros H1 H2.
  destruct (init_effect _ _ _ _ H1) as (sa & Ho1 & Hs1 & Hw1 & Hp1 & Hfa & Hfsa).
  destruct (init_effect _ _ _ _ H2) as (sb & Ho2 & Hs2 & Hw2 & Hp2 & Hfb & Hfsb).
  assert (Hab : a ≠ b).
  { intros ->. rewrite Ho1, lookup_insert_eq in Hfb. discriminate. }
  assert (Hsab : sa ≠ sb).
  { intros ->. rewrite Hs1, lookup_insert_eq in Hfsb. discriminate. }
  assert (Ha : objects w2 !! a = Some (mkLedgerX t1 sa)).
  { rewrite Ho2, lookup_insert_ne by congruence. rewrite Ho1. apply lookup_insert_eq. }
  assert (Hb : objects w2 !! b = Some (mkLedgerX t2 sb)).
  { rewrite Ho2. apply lookup_insert_eq. }
  assert (Hsa : sessions w2 !! sa = Some Session_new).
  { rewrite Hs2, lookup_insert_ne by congruence. rewrite Hs1. apply lookup_insert_eq. }
  destruct (run_calls_wire a cs w2 _ _ Ha Hsa) as (xs & Hxs & Hall).
  exists sa, sb, xs.
  split; [exact Hab|]. split; [exact Hsab|]. split; [exact Ha|]. split; [exact Hb|].
  split; [congruence|]. split; [congruence|]. split; [exact Hxs|].
  split; [exact Hall|]. split.
  - rewrite run_calls_objects. exact Hb.
  - rewrite run_calls_sessions.
    + rewrite Hs2. apply lookup_insert_eq.
    + intros o Ho. rewrite Ha in Ho. injection Ho as <-. cbn. congruence.
Qed.

(** *** The example program *)

(** [main], step by step: a new client, its one call, and the printing
    of what the call returned. *)
Lemma main_trace (py_str : PyVal -> string) jwt w0 :
  ∃ self s w1 x,
    __init__ jwt w0 = (Returned self, w1)
    ∧ objects w1 !! self = Some (mkLedgerX jwt s)
    ∧ sessions w1 !! s = Some Session_new
    ∧ sessions w0 !! s = None
    ∧ wire (invoke self main_call w1).2 = (wire w1 ++ [x])%list
    ∧ sent_session x = s
    ∧ wire (Main.main py_str jwt w0).2 = (wire w0 ++ [x])%list
    ∧ stdout w1 = stdout w0
    ∧ (Main.main py_str jwt w0).1 =
        match (invoke self main_call w1).1 with
        | Returned _ => Returned tt
        | Raised e => Raised e
        end
    ∧ stdout (Main.main py_str jwt w0).2 =
        match (invoke self main_call w1).1 with
        | Returned v => (stdout (invoke self main_call w1).2 ++ [py_str v])%list
        | Raised _ => stdout (invoke self main_call w1).2
        end.
Proof.
  destruct (__init__ jwt w0) as [r w1] eqn:Hinit.
  assert (Hr : ∃ self, r = Returned self).
  { unfold __init__ in Hinit. injection Hinit as <- _. eauto. }
  destruct Hr as [self ->].
  destruct (init_effect _ _ _ _ Hinit) as (s & Ho & Hs & Hw & Hp & _ & Hfs).
  assert (Ho1 : objects w1 !! self = Some (mkLedgerX jwt s))
    by (rewrite Ho; apply lookup_insert_eq).
  assert (Hs1 : sessions w1 !! s = Some Session_new)
    by (rewrite Hs; apply lookup_insert_eq).
  destruct (invoke_trace self main_call w1 _ _ Ho1 Hs1) as (x & Hx & Hse & _).
  exists self, s, w1, x.
  split; [reflexivity|]. split; [exact Ho1|]. split; [exact Hs1|].
  split; [exact Hfs|]. split; [exact Hx|]. split; [exact Hse|].
  assert (E : Main.main py_str jwt w0 =
              match invoke self main_call w1 with
              | (Returned v, w2) => print [py_str v] w2
              | (Raised e, w2) => (Raised e, w2)
              end).
  { unfold Main.main, mbind, M_bind, bind at 1. rewrite Hinit.
    unfold bind at 1. reflexivity. }
  rewrite E. revert Hx.
  destruct (invoke self main_call w1) as [[v|e] w2]; cbn; intros ->;
    rewrite Hw; auto.
Qed.

(** X16: [main] makes one request, through a session made for it: a [GET] of
    the contracts listing that carries the token as [JWT <token>], asks
    for [active] ["true"], [derivative_type] ["future_contract"] and
    [limit] 5, and sends the five filters it does not use as [None]. *)
Theorem main_request (py_str : PyVal -> string) jwt w0 :
  ∃ x (params : gmap string PyVal),
    wire (Main.main py_str jwt w0).2 = (wire w0 ++ [x])%list
    ∧ sessions w0 !! sent_session x = None
    ∧ sent_method x = "GET"
    ∧ sent_url x = "https://api.ledgerx.com/trading/contracts"
    ∧ sent_header x "Authorization" = Some (PyStr ("JWT " ++ jwt))
    ∧ sent_opts x !! "params" = Some (PyDict params)
    ∧ params !! "active" = Some (PyStr "true")
    ∧ params !! "derivative_type" = Some (PyStr "future_contract")
    ∧ params !! "limit" = Some (PyInt 5)
    ∧ params !! "contract_type" = Some PyNone
    ∧ params !! "asset" = Some PyNone
    ∧ params !! "before_ts" = Some PyNone
    ∧ params !! "after_ts" = Some PyNone
    ∧ params !! "offset" = Some PyNone.
Proof.
  destruct (main_trace py_str jwt w0)
    as (self & s & w1 & x & _ & Ho & Hs & Hfs & Hx & Hse & Hw & _).
  revert Hx. unfold main_call. request_of_call Ho Hs y Hy Hm Hu Hopts.
  intros Hx. rewrite Hy in Hx. apply wire_last in Hx. subst y.
  exists x. eexists. split; [exact Hw|]. rewrite Hse. split; [exact Hfs|].
  split; [exact Hm|]. split; [exact Hu|].
  unfold sent_header. rewrite Hopts. cbn [_jwt_token].
  split; [reflexivity|]. split; [reflexivity|]. repeat split; reflexivity.
Qed.

(** X17: When the listing fails with a status from 400 to 599, [main] does not
    fail: it prints the error line and then [str(None)]. *)
Theorem main_on_http_error (py_str : PyVal -> string) jwt w0 x response :
  wire (Main.main py_str jwt w0).2 = (wire w0 ++ [x])%list ->
  answer x = Returned response ->
  is_4xx_5xx response = true ->
  (Main.main py_str jwt w0).1 = Returned tt
  ∧ ∃ msg,
      Response.raise_for_status response = Raised (HTTPError msg)
      ∧ stdout (Main.main py_str jwt w0).2
        = (stdout w0 ++ [("error:  " ++ msg)%string; py_str PyNone])%list.
Proof.
  intros Hw Ha He.
  destruct (main_trace py_str jwt w0)
    as (self & s & w1 & y & _ & Ho & Hs & _ & Hy & _ & Hw' & Hp & Hres & Hout).
  rewrite Hw' in Hw. apply wire_last in Hw. subst y.
  destruct (invoke_trace_at self main_call w1 _ _ x Ho Hs Hy) as [Hr Hso].
  destruct (raise_for_status_raises response He) as [msg Hmsg].
  rewrite Ha, Hmsg in Hr, Hso. rewrite Hr in Hres, Hout.
  split; [exact Hres|]. exists msg. split; [exact Hmsg|].
  rewrite Hout, Hso, Hp, <- app_assoc. reflexivity.
Qed.

(** X18: When the listing succeeds with a JSON object, [main] prints the
    [str] of what is under ["data"] ([None] when there is no such key),
    and nothing else. *)
Theorem main_prints_data (py_str : PyVal -> string) jwt w0 x response d :
  wire (Main.main py_str jwt w0).2 = (wire w0 ++ [x])%list ->
  answer x = Returned response ->
  is_4xx_5xx response = false ->
  Response.text response ≠ "" ->
  Response.json response = Returned (PyDict d) ->
  (Main.main py_str jwt w0).1 = Returned tt
  ∧ stdout (Main.main py_str jwt w0).2
    = (stdout w0 ++ [py_str (default PyNone (d !! "data"))])%list.
Proof.
  intros Hw Ha Hst Htext Hjson.
  destruct (main_trace py_str jwt w0)
    as (self & s & w1 & y & _ & Ho & Hs & _ & Hy & _ & Hw' & Hp & Hres & Hout).
  rewrite Hw' in Hw. apply wire_last in Hw. subst y.
  destruct (invoke_trace_at self main_call w1 _ _ x Ho Hs Hy) as [Hr Hso].
  rewrite Ha, (raise_for_status_passes response Hst) in Hr, Hso.
  apply String.eqb_neq in Htext. rewrite Htext, Hjson in Hr. cbv beta iota in Hr.
  rewrite Hr in Hres, Hout. split; [exact Hres|].
  rewrite Hout, Hso, Hp. reflexivity.
Qed.

(** X19: When the session raises while sending, or the body does not decode,
    [main] raises the same exception and prints nothing. *)
Theorem main_propagates_errors (py_str : PyVal -> string) jwt w0 x e :
  wire (Main.main py_str jwt w0).2 = (wire w0 ++ [x])%list ->
  (answer x = Raised e
   ∨ ∃ response,
       answer x = Returned response
       ∧ is_4xx_5xx response = false
       ∧ Response.text response ≠ ""
       ∧ Response.json response = Raised e) ->
  (Main.main py_str jwt w0).1 = Raised e
  ∧ stdout (Main.main py_str jwt w0).2 = stdout w0.
Proof.
  intros Hw Hcase.
  destruct (main_trace py_str jwt w0)
    as (self & s & w1 & y & _ & Ho & Hs & _ & Hy & _ & Hw' & Hp & Hres & Hout).
  rewrite Hw' in Hw. apply wire_last in Hw. subst y.
  destruct (invoke_trace_at self main_call w1 _ _ x Ho Hs Hy) as [Hr Hso].
  assert (Hr' : (invoke self main_call w1).1 = Raised e
                ∧ stdout (invoke self main_call w1).2 = stdout w1).
  { destruct Hcase as [Ha|(response & Ha & Hst & Htext & Hjson)].
    - rewrite Ha in Hr, Hso. auto.
    - rewrite Ha, (raise_for_status_passes response Hst) in Hr, Hso.
      apply String.eqb_neq in Htext. rewrite Htext, Hjson in Hr. auto. }
  destruct Hr' as [Hr1 Hr2]. rewrite Hr1 in Hres, Hout.
  split; [exact Hres|]. rewrite Hout, Hr2, Hp. reflexivity.
Qed.

End Behaviour.

(** ** More concrete runs *)


(** A script that is used up: the connection fails and the caller sees
    the failure. *)
Lemma transport_error_propagates_witness :
  let w := scripted_world [] in
  let e := RequestException "connection refused" in
  let x := mkExchange 1%positive "GET" "https://trade.ledgerx.com/api/open-orders"
             tok_query_opts (Raised e) in
  objects w !! 1%positive = Some tok_client
  ∧ sessions w !! 1%positive = Some []
  ∧ wire (invoke 1%positive GetOpenOrders w).2 = (wire w ++ [x])%list
  ∧ answer x = Raised e
  ∧ (invoke 1%positive GetOpenOrders w).1 = Raised e.
Proof.
  intros w e x. repeat (split; [reflexivity|]).
  exact (proj1 (transport_error_propagates 1%positive GetOpenOrders w tok_client []
                  x e eq_refl eq_refl eq_refl eq_refl)).
Defined.

(** A 200 whose body is a page of HTML. *)
Lemma decode_error_propagates_witness :
  let r := response_of 200 "<html></html>" not_json in
  let w := scripted_world [Returned r] in
  let x := mkExchange 1%positive "GET" "https://trade.ledgerx.com/api/open-orders"
             tok_query_opts (Returned r) in
  objects w !! 1%positive = Some tok_client
  ∧ sessions w !! 1%positive = Some [Returned r]
  ∧ wire (invoke 1%positive GetOpenOrders w).2 = (wire w ++ [x])%list
  ∧ answer x = Returned r
  ∧ is_4xx_5xx r = false
  ∧ Response.text r ≠ ""
  ∧ Response.json r = not_json
  ∧ (invoke 1%positive GetOpenOrders w).1 = not_json.
Proof.
  intros r w x.
  assert (Htext : Response.text r ≠ "") by (intros H; discriminate H).
  repeat (split; [reflexivity|]). split; [exact Htext|]. split; [reflexivity|].
  exact (proj1 (decode_error_propagates 1%positive GetOpenOrders w tok_client
                  [Returned r] x r _ eq_refl eq_refl eq_refl eq_refl eq_refl
                  Htext eq_refl)).
Defined.

(** A 200 whose body is a JSON list. *)
Lemma non_mapping_body_raises_witness :
  let r := response_of 200 "[1]" (Returned (PyList [PyInt 1])) in
  let w := scripted_world [Returned r] in
  let x := mkExchange 1%positive "GET" "https://trade.ledgerx.com/api/open-orders"
             tok_query_opts (Returned r) in
  objects w !! 1%positive = Some tok_client
  ∧ sessions w !! 1%positive = Some [Returned r]
  ∧ wire (invoke 1%positive GetOpenOrders w).2 = (wire w ++ [x])%list
  ∧ answer x = Returned r
  ∧ is_4xx_5xx r = false
  ∧ Response.text r ≠ ""
  ∧ (∀ d, PyList [PyInt 1] ≠ PyDict d)
  ∧ (invoke 1%positive GetOpenOrders w).1 = Raised (AttributeError "get").
Proof.
  intros r w x.
  assert (Htext : Response.text r ≠ "") by (intros H; discriminate H).
  assert (Hv : ∀ d, PyList [PyInt 1] ≠ PyDict d) by (intros d H; discriminate H).
  repeat (split; [reflexivity|]). split; [exact Htext|]. split; [exact Hv|].
  exact (non_mapping_body_raises 1%positive GetOpenOrders w tok_client
           [Returned r] x r _ eq_refl eq_refl eq_refl eq_refl eq_refl
           Htext eq_refl Hv).
Defined.

(** A 301 that carries a JSON object: its data reaches the caller. *)
Lemma data_passed_through_witness :
  let d : gmap string PyVal := {[ "data" := PyList [PyInt 7] ]} in
  let r := response_of 301 "{...}" (Returned (PyDict d)) in
  let w := scripted_world [Returned r] in
  let x := mkExchange 1%positive "GET" "https://trade.ledgerx.com/api/open-orders"
             tok_query_opts (Returned r) in
  objects w !! 1%positive = Some tok_client
  ∧ sessions w !! 1%positive = Some [Returned r]
  ∧ wire (invoke 1%positive GetOpenOrders w).2 = (wire w ++ [x])%list
  ∧ answer x = Returned r
  ∧ is_4xx_5xx r = false
  ∧ Response.text r ≠ ""
  ∧ d !! "data" = Some (PyList [PyInt 7])
  ∧ (invoke 1%positive GetOpenOrders w).1 = Returned (PyList [PyInt 7]).
Proof.
  intros d r w x.
  assert (Htext : Response.text r ≠ "") by (intros H; discriminate H).
  repeat (split; [reflexivity|]). split; [exact Htext|]. split; [reflexivity|].
  exact (proj1 (data_passed_through 1%positive GetOpenOrders w tok_client
                  [Returned r] x r d _ eq_refl eq_refl eq_refl eq_refl eq_refl
                  Htext eq_refl eq_refl)).
Defined.

(** A 304 with no body. *)
Lemma empty_body_any_passing_status_witness :
  let r := response_of 304 "" not_json in
  let w := scripted_world [Returned r] in
  let x := mkExchange 1%positive "GET" "https://trade.ledgerx.com/api/open-orders"
             tok_query_opts (Returned r) in
  objects w !! 1%positive = Some tok_client
  ∧ sessions w !! 1%positive = Some [Returned r]
  ∧ wire (invoke 1%positive GetOpenOrders w).2 = (wire w ++ [x])%list
  ∧ answer x = Returned r
  ∧ is_4xx_5xx r = false
  ∧ Response.text r = ""
  ∧ (invoke 1%positive GetOpenOrders w).1
    = Returned (PyDict {[ "status" := PyInt 304 ]}).
Proof.
  intros r w x. repeat (split; [reflexivity|]).
  exact (proj1 (empty_body_any_passing_status 1%positive GetOpenOrders w tok_client
                  [Returned r] x r eq_refl eq_refl eq_refl eq_refl eq_refl eq_refl)).
Defined.

(** A 503: one line, with [Server Error]. *)
Lemma prints_only_on_http_error_witness :
  let r := {| Response.status_code := 503;
              Response.reason := "Service Unavailable";
              Response.url := "https://trade.ledgerx.com/api/open-orders";
              Response.text := "";
              Response.json := not_json |} in
  let w := scripted_world [Returned r] in
  let x := mkExchange 1%positive "GET" "https://trade.ledgerx.com/api/open-orders"
             tok_query_opts (Returned r) in
  objects w !! 1%positive = Some tok_client
  ∧ sessions w !! 1%positive = Some [Returned r]
  ∧ wire (invoke 1%positive GetOpenOrders w).2 = (wire w ++ [x])%list
  ∧ stdout (invoke 1%positive GetOpenOrders w).2
    = ["error:  503 Server Error: Service Unavailable for url: https://trade.ledgerx.com/api/open-orders"].
Proof.
  intros r w x. repeat (split; [reflexivity|]).
  exact (prints_only_on_http_error 1%positive GetOpenOrders w tok_client
           [Returned r] x eq_refl eq_refl eq_refl).
Defined.

(** A cancellation and a listing that both get the same 404. *)
Lemma outcome_depends_on_answer_only_witness :
  let r := response_of 404 "" not_json in
  let w := scripted_world [Returned r] in
  let c1 := GetOpenOrders in
  let c2 := PatchOrder "m1" (IsInt 22) (PyInt 100) (PyInt 3) in
  objects w !! 1%positive = Some tok_client
  ∧ sessions w !! 1%positive = Some [Returned r]
  ∧ ∃ x1 x2,
      wire (invoke 1%positive c1 w).2 = (wire w ++ [x1])%list
      ∧ wire (invoke 1%positive c2 w).2 = (wire w ++ [x2])%list
      ∧ answer x1 = answer x2
      ∧ (invoke 1%positive c1 w).1 = (invoke 1%positive c2 w).1.
Proof.
  intros r w c1 c2. split; [reflexivity|]. split; [reflexivity|].
  do 2 eexists. split; [reflexivity|]. split; [reflexivity|]. split; [reflexivity|].
  exact (outcome_depends_on_answer_only
           1%positive c1 w tok_client [Returned r] _
           1%positive c2 w tok_client [Returned r] _
           eq_refl eq_refl eq_refl eq_refl eq_refl eq_refl eq_refl).
Defined.

(** The same cancellation by a client with token ["tok"] and by one with
    token ["secret"]. *)
Lemma token_only_in_header_witness :
  let w1 := scripted_world [] in
  let w2 := (__init__ "secret" empty_world).2 in
  let c := DeleteSingleOrder "m1" (IsInt 22) in
  (objects w1 !! 1%positive = Some tok_client
   ∧ sessions w1 !! 1%positive = Some []
   ∧ objects w2 !! 1%positive = Some (mkLedgerX "secret" 1%positive)
   ∧ sessions w2 !! 1%positive = Some [])
  ∧ ∃ x1 x2,
      wire (invoke 1%positive c w1).2 = (wire w1 ++ [x1])%list
      ∧ wire (invoke 1%positive c w2).2 = (wire w2 ++ [x2])%list
      ∧ sent_url x1 = sent_url x2
      ∧ sent_opts x1 !! "params" = sent_opts x2 !! "params".
Proof.
  intros w1 w2 c. split; [repeat split; reflexivity|].
  do 2 eexists. split; [reflexivity|]. split; [reflexivity|].
  match goal with
  | |- sent_url ?x1 = sent_url ?x2 ∧ _ =>
      destruct (@token_only_in_header _ scripted 1%positive 1%positive c w1 w2
                  tok_client [] (mkLedgerX "secret" 1%positive) [] x1 x2
                  eq_refl eq_refl eq_refl eq_refl eq_refl eq_refl)
        as (_ & Hu & Hk)
  end.
  split; [exact Hu|]. apply Hk. intros H; discriminate H.
Defined.

(** The replacement of an order is a [DELETE] with a mapping in the query
    string. *)
Lemma verb_and_placement_by_call_witness :
  let w := scripted_world [] in
  let c := PatchOrder "m1" (IsInt 22) (PyInt 100) (PyInt 3) in
  objects w !! 1%positive = Some tok_client
  ∧ sessions w !! 1%positive = Some []
  ∧ ∃ x, wire (invoke 1%positive c w).2 = (wire w ++ [x])%list
         ∧ sent_method x = "DELETE"
         ∧ sent_opts x !! "json" = None.
Proof.
  intros w c. split; [reflexivity|]. split; [reflexivity|].
  destruct (verb_and_placement_by_call 1%positive c w tok_client []
              eq_refl eq_refl)
    as (x & Hw & Hm & Hj & _).
  exists x. auto.
Defined.

(** A ticker request goes to the API host. *)
Lemma requests_go_to_two_hosts_witness :
  let w := scripted_world [] in
  let c := GetContractTicker (IsStr "day-ahead") None (Some (PyStr "CBTC")) in
  objects w !! 1%positive = Some tok_client
  ∧ sessions w !! 1%positive = Some []
  ∧ ∃ x, wire (invoke 1%positive c w).2 = (wire w ++ [x])%list
         ∧ String.prefix "https://api.ledgerx.com/trading/" (sent_url x) = true.
Proof.
  intros w c. split; [reflexivity|]. split; [reflexivity|].
  exact (requests_go_to_two_hosts 1%positive c w tok_client [] eq_refl eq_refl).
Defined.

(** An order with [volatile] set and [swap_purpose] left out. *)
Lemma create_order_body_witness :
  let w := scripted_world [] in
  objects w !! 1%positive = Some tok_client
  ∧ sessions w !! 1%positive = Some []
  ∧ ∃ x body,
      wire (invoke 1%positive
              (CreateOrder (IsInt 22) (PyStr "limit") (PyBool true) (PyInt 1)
                 (PyInt 5000) (Some (PyBool true)) None) w).2
      = (wire w ++ [x])%list
      ∧ sent_opts x !! "json" = Some (PyDict body)
      ∧ body !! "volatile" = Some (PyBool true)
      ∧ body !! "swap_purpose" = Some (PyStr "undisclosed").
Proof.
  intros w. split; [reflexivity|]. split; [reflexivity|].
  destruct (create_order_body 1%positive (IsInt 22) (PyStr "limit") (PyBool true)
              (PyInt 1) (PyInt 5000) (Some (PyBool true)) None w tok_client []
              eq_refl eq_refl)
    as (x & body & Hw & _ & Hj & _ & _ & _ & _ & _ & _ & Hv & Hsp).
  exists x, body. auto.
Defined.

(** Two book-state requests for contract 22. *)
Lemma integer_ids_give_distinct_urls_witness :
  let w := scripted_world [] in
  let x := mkExchange 1%positive "GET" "https://trade.ledgerx.com/api/book-states/22"
             tok_query_opts (Raised (RequestException "connection refused")) in
  objects w !! 1%positive = Some tok_client
  ∧ sessions w !! 1%positive = Some []
  ∧ wire (invoke 1%positive (GetCurrentBookState (IsInt 22)) w).2
    = (wire w ++ [x])%list
  ∧ sent_url x = sent_url x
  ∧ 22 = 22.
Proof.
  intros w x. repeat (split; [reflexivity|]).
  exact (proj1 (integer_ids_give_distinct_urls 1%positive 22 22 w w
                  tok_client [] tok_client [] eq_refl eq_refl eq_refl eq_refl)
           x x eq_refl eq_refl eq_refl).
Defined.

(** Two clients built one after the other, and two calls on the first. *)
Lemma clients_are_isolated_witness :
  let w1 := (__init__ "first" empty_world).2 in
  let w2 := (__init__ "second" w1).2 in
  let cs := [GetOpenOrders; DeleteAllOrders] in
  __init__ "first" empty_world = (Returned 1%positive, w1)
  ∧ __init__ "second" w1 = (Returned 2%positive, w2)
  ∧ ∃ sb,
      objects (run_calls 1%positive cs w2).2 !! 2%positive
      = Some (mkLedgerX "second" sb)
      ∧ sessions (run_calls 1%positive cs w2).2 !! sb = Some [].
Proof.
  intros w1 w2 cs. split; [reflexivity|]. split; [reflexivity|].
  destruct (clients_are_isolated "first" "second" empty_world 1%positive w1
              2%positive w2 cs eq_refl eq_refl)
    as (sa & sb & xs & _ & _ & _ & _ & _ & _ & _ & _ & Ho & Hs).
  exists sb. auto.
Defined.

(** [main] against an exchange that answers 401 to everything. *)
Lemma main_on_http_error_witness :
  let r := response_of 401 "" not_json in
  let run := @Main.main unit (fixed_answer (Returned r)) show "tok" blank in
  ∃ x,
    wire run.2 = (wire blank ++ [x])%list
    ∧ answer x = Returned r
    ∧ is_4xx_5xx r = true
    ∧ run.1 = Returned tt
    ∧ stdout run.2 = ["error:  401 Client Error:  for url: "; "None"].
Proof.
  intros r run. eexists. split; [reflexivity|]. split; [reflexivity|].
  match goal with
  | |- is_4xx_5xx _ = true ∧ _ => split; [reflexivity|]
  end.
  exact (conj
           (proj1 (@main_on_http_error unit (fixed_answer (Returned r)) show "tok"
                     blank _ r eq_refl eq_refl eq_refl))
           eq_refl).
Defined.

(** [main] against an exchange that answers with a listing of one
    integer. *)
Lemma main_prints_data_witness :
  let d : gmap string PyVal := {[ "data" := PyInt 42 ]} in
  let r := response_of 200 "{...}" (Returned (PyDict d)) in
  let run := @Main.main unit (fixed_answer (Returned r)) show "tok" blank in
  ∃ x,
    wire run.2 = (wire blank ++ [x])%list
    ∧ answer x = Returned r
    ∧ is_4xx_5xx r = false
    ∧ Response.text r ≠ ""
    ∧ Response.json r = Returned (PyDict d)
    ∧ run.1 = Returned tt
    ∧ stdout run.2 = ["42"].
Proof.
  intros d r run.
  assert (Htext : Response.text r ≠ "") by (intros H; discriminate H).
  eexists. split; [reflexivity|]. split; [reflexivity|].
  split; [reflexivity|]. split; [exact Htext|]. split; [reflexivity|].
  exact (@main_prints_data unit (fixed_answer (Returned r)) show "tok" blank
           _ r d eq_refl eq_refl eq_refl Htext eq_refl).
Defined.

(** [main] with no connection. *)
Lemma main_propagates_errors_witness :
  let e := RequestException "connection refused" in
  let run := @Main.main unit (fixed_answer (Raised e)) show "tok" blank in
  ∃ x,
    wire run.2 = (wire blank ++ [x])%list
    ∧ answer x = Raised e
    ∧ run.1 = Raised e
    ∧ stdout run.2 = [].
Proof.
  intros e run. eexists. split; [reflexivity|]. split; [reflexivity|].
  exact (@main_propagates_errors unit (fixed_answer (Raised e)) show "tok" blank
           _ e eq_refl (or_introl eq_refl)).
Defined.
